(** * A model of the food-ordering server (server.js)

    The server is one Express application over three Mongoose collections
    (FoodItem, Order, User).  Every route handler is embedded as a function
    from the environment of the request, the database and the request to a
    response and the database that results.  The packages the server
    imports (jsonwebtoken, bcryptjs, mongoose) are not part of the
    repository: what the server calls of them is an interface here, with
    the laws of the package that the server relies on, and only the way the
    server calls them is modelled. *)

From Stdlib Require Import String Ascii List Bool Arith ZArith QArith Lia.
From Stdlib Require Import Permutation Sorted.
Import ListNotations.

Close Scope Q_scope.
Open Scope nat_scope.
Open Scope string_scope.
Open Scope list_scope.

(** ** JavaScript strings *)

Module Js.

(** [String.prototype.split] with a separator of one character: the pieces
    between the occurrences of the separator, empty pieces included. *)
Fixpoint split (sep : ascii) (s : string) : list string :=
  match s with
  | EmptyString => [EmptyString]
  | String c rest =>
      if Ascii.eqb c sep then EmptyString :: split sep rest
      else match split sep rest with
           | [] => [String c EmptyString]
           | piece :: pieces => String c piece :: pieces
           end
  end.

(** [!s] for a value that is a string or undefined. *)
Definition falsy (v : option string) : bool :=
  match v with
  | None => true
  | Some s => String.eqb s ""
  end.

(** The character [c] does not occur in [s]. *)
Fixpoint free (c : ascii) (s : string) : bool :=
  match s with
  | EmptyString => true
  | String d rest => negb (Ascii.eqb d c) && free c rest
  end.

(** The alphabet of base64url without padding. *)
Definition b64url_char (c : ascii) : bool :=
  let n := nat_of_ascii c in
  (((65 <=? n) && (n <=? 90)) || ((97 <=? n) && (n <=? 122))
  || ((48 <=? n) && (n <=? 57)) || (n =? 45) || (n =? 95))%nat.

Fixpoint b64url (s : string) : bool :=
  match s with
  | EmptyString => true
  | String c rest => b64url_char c && b64url rest
  end.

End Js.

(** ** jsonwebtoken *)

(** The payload of a token: [email], as the server signs it in
    [{ email: user.email }] (absent for a user registered without an email
    address), and [iat], the time of issue in seconds, which the package
    adds when it signs. *)
Record Payload := {
  claim_email : option string;
  claim_iat : option Z
}.

(** The errors [jwt.verify] hands to its callback. *)
Inductive JwtError := JsonWebTokenError | TokenExpiredError | NotBeforeError.

Module jwt.

(** [jwt.sign(payload, secret)] at a time of the clock, in milliseconds,
    and [jwt.verify(token, secret, callback)] at a time of the clock: the
    argument handed to the callback, an error or the decoded payload.  Two
    laws of the package: a token signed for an email under a secret that is
    not empty verifies under that secret, at any time, to the email and the
    second of issue; and a token is not empty and has no space. *)
Class Package := {
  sign : Payload -> string -> Z -> string;
  verify : string -> string -> Z -> JwtError + Payload;
  verify_sign :
    forall (email : option string) (secret : string) (issued checked : Z),
      secret <> "" ->
      verify (sign {| claim_email := email; claim_iat := None |} secret issued)
             secret checked
      = inr {| claim_email := email; claim_iat := Some (issued / 1000)%Z |};
  sign_token :
    forall (payload : Payload) (secret : string) (issued : Z),
      secret <> "" ->
      Js.free " " (sign payload secret issued) = true
      /\ sign payload secret issued <> ""
}.

End jwt.

(** ** bcryptjs *)

(** [bcrypt.hash(password, 10)] draws a salt; the salt is an input here.
    [bcrypt.compare(password, hash)] is the test of a password against a
    stored hash. *)
Class Bcrypt := {
  bcrypt_hash : string -> string -> string;
  bcrypt_compare : string -> string -> bool;
  bcrypt_compare_hash :
    forall password salt, bcrypt_compare password (bcrypt_hash password salt) = true
}.

(** ** Schemas *)

(** A value of a JSON request body, or undefined for a field the body
    does not have. *)
#[warnings="-register-all"]
Inductive JsValue :=
| JsUndefined
| JsNull
| JsBool (b : bool)
| JsNumber (q : Q)
| JsString (s : string)
| JsArray (items : list JsValue)
| JsObject (fields : list (string * JsValue)).

(** An ObjectId.  Mongoose draws a new one for every document it builds;
    the database record carries the next one. *)
Definition ObjectId := nat.

(** foodItemSchema; [_id] is a uuid. *)
Record foodItem := {
  fi_id : string;
  fi_name : string;
  fi_image : string;
  fi_price : Q;
  fi_description : string;
  fi_type : string
}.

(** orderSchema: no path is required, [status] is a string checked against
    the enum, [timestamps] adds [createdAt] and [updatedAt], in
    milliseconds.  Numbers are stored and returned, never computed with;
    they are rationals here. *)
Record userDetailsT := {
  ud_name : option string;
  ud_email : option string
}.

Record orderLine := {
  foodName : option string;
  foodPrice : option Q;
  quantity : option Q
}.

Record order := {
  o_id : ObjectId;
  userDetails : userDetailsT;
  orderDetails : list orderLine;
  totalAmount : option Q;
  paymentMethod : option string;
  status : string;
  createdAt : Z;
  updatedAt : Z
}.

Definition status_enum : list string := ["Pending"; "Delivered"; "Rejected"].

(** userSchema: [name] and [password] are required, [mobile] and [email]
    carry a unique index. *)
Record user := {
  u_id : ObjectId;
  u_name : option string;
  u_mobile : option string;
  u_email : option string;
  u_password : option string;
  u_profileImage : option string
}.

(** The three collections, each in insertion order. *)
Record DB := {
  foodItems : list foodItem;
  orders : list order;
  users : list user;
  next_id : ObjectId
}.

Definition empty_db : DB :=
  {| foodItems := []; orders := []; users := []; next_id := 0 |}.

(** What a request takes from outside the program: the clock, whether the
    database answers (when it does not, every Mongoose call of the request
    is rejected), the salt bcrypt draws and the uuid for a new food item. *)
Record Env := {
  now : Z;
  store_ok : bool;
  salt : string;
  uuid : string
}.

(** ** Promises *)

(** The outcome of an awaited call: a value, or [None] when the promise is
    rejected. *)
Definition Async (A : Type) := option A.

Definition resolve {A : Type} (a : A) : Async A := Some a.
Definition reject {A : Type} : Async A := None.

Definition bind {A B : Type} (m : Async A) (k : A -> Async B) : Async B :=
  match m with
  | Some a => k a
  | None => None
  end.

Notation "x <- m ;; k" := (bind m (fun x => k))
  (at level 61, m at next level, right associativity).

(** [try { ... } catch { ... }] around awaited calls. *)
Definition try_catch {A : Type} (body : Async A) (handler : A) : A :=
  match body with
  | Some a => a
  | None => handler
  end.

(** ** Mongoose *)

Definition option_eqb (a b : option string) : bool :=
  match a, b with
  | Some x, Some y => String.eqb x y
  | None, None => true
  | _, _ => false
  end.

(** The [required] validator of a String path: the value is a string and
    is not empty. *)
Definition required (v : option string) : bool := negb (Js.falsy v).

(** JSON body of POST /orders: the four fields the handler takes from
    [req.body], each any JSON value or undefined. *)
Record OrderBody := {
  ob_userDetails : JsValue;
  ob_orderDetails : JsValue;
  ob_totalAmount : JsValue;
  ob_paymentMethod : JsValue
}.

(** The four paths of a new order after the cast to orderSchema. *)
Record orderFields := {
  of_userDetails : option userDetailsT;
  of_orderDetails : list orderLine;
  of_totalAmount : option Q;
  of_paymentMethod : option string
}.

(** The body that holds given fields as JSON: strings as strings, numbers
    as numbers, a field that is absent left out. *)
Definition json_field (key : string) (v : option JsValue) : list (string * JsValue) :=
  match v with
  | Some x => [(key, x)]
  | None => []
  end.

Definition json_optional {A : Type} (f : A -> JsValue) (v : option A) : JsValue :=
  match v with
  | Some x => f x
  | None => JsUndefined
  end.

Definition json_userDetails (d : userDetailsT) : JsValue :=
  JsObject (json_field "name" (option_map JsString (ud_name d))
            ++ json_field "email" (option_map JsString (ud_email d))).

Definition json_line (l : orderLine) : JsValue :=
  JsObject (json_field "foodName" (option_map JsString (foodName l))
            ++ json_field "foodPrice" (option_map JsNumber (foodPrice l))
            ++ json_field "quantity" (option_map JsNumber (quantity l))).

Definition json_order (f : orderFields) : OrderBody :=
  {| ob_userDetails := json_optional json_userDetails (of_userDetails f);
     ob_orderDetails := JsArray (List.map json_line (of_orderDetails f));
     ob_totalAmount := json_optional JsNumber (of_totalAmount f);
     ob_paymentMethod := json_optional JsString (of_paymentMethod f) |}.

(** The casts of Mongoose that the server meets, [None] a cast error:
    - of a route parameter to an ObjectId; a string of fewer than twelve
      characters is never one;
    - of the body of a new order to the paths of orderSchema; a body that
      holds fields of the types of the schema casts to these fields, and a
      body whose [totalAmount] is an array never casts: no array is a
      Number;
    - of a value in a filter on a String path to the condition it puts on
      the stored field; a string asks for that string, undefined and null
      ask for a field that is missing. *)
Class Mongoose := {
  castObjectId : string -> option ObjectId;
  castObjectId_short :
    forall id : string, String.length id < 12 -> castObjectId id = None;
  castOrder : OrderBody -> option orderFields;
  castOrder_json : forall f : orderFields, castOrder (json_order f) = Some f;
  castOrder_total_array :
    forall (b : OrderBody) (items : list JsValue),
      ob_totalAmount b = JsArray items -> castOrder b = None;
  castFilter : JsValue -> option (option string -> bool);
  castFilter_string :
    forall s : string,
      exists q, castFilter (JsString s) = Some q
                /\ forall v, q v = option_eqb v (Some s);
  castFilter_undefined :
    exists q, castFilter JsUndefined = Some q /\ forall v, q v = option_eqb v None;
  castFilter_null :
    exists q, castFilter JsNull = Some q /\ forall v, q v = option_eqb v None
}.

Module FoodItem.

Definition find (env : Env) (db : DB) : Async (list foodItem) :=
  if store_ok env then resolve (foodItems db) else reject.

(** [save] of a new document; a second document with the same [_id] is a
    duplicate key. *)
Definition save (env : Env) (db : DB) (doc : foodItem) : Async DB :=
  if store_ok env then
    if existsb (fun f => String.eqb (fi_id f) (fi_id doc)) (foodItems db)
    then reject
    else resolve {| foodItems := foodItems db ++ [doc];
                    orders := orders db;
                    users := users db;
                    next_id := next_id db |}
  else reject.

Fixpoint remove_first (id : string) (l : list foodItem) : list foodItem :=
  match l with
  | [] => []
  | f :: rest => if String.eqb (fi_id f) id then rest else f :: remove_first id rest
  end.

Definition findByIdAndDelete (env : Env) (db : DB) (id : string)
  : Async (option foodItem * DB) :=
  if store_ok env then
    match List.find (fun f => String.eqb (fi_id f) id) (foodItems db) with
    | None => resolve (None, db)
    | Some f => resolve (Some f, {| foodItems := remove_first id (foodItems db);
                                    orders := orders db;
                                    users := users db;
                                    next_id := next_id db |})
    end
  else reject.

End FoodItem.

Module Order.
Section Model.
Context `{Mongoose}.

(** [Order.find(filter)], in insertion order. *)
Definition find (env : Env) (db : DB) (filter : order -> bool) : Async (list order) :=
  if store_ok env then resolve (List.filter filter (orders db)) else reject.

(** [.sort({ createdAt: -1 })].  MongoDB leaves the order of documents with
    the same key open; here they keep their stored order. *)
Fixpoint insert_desc (o : order) (l : list order) : list order :=
  match l with
  | [] => [o]
  | x :: rest =>
      if (createdAt x <=? createdAt o)%Z then o :: l
      else x :: insert_desc o rest
  end.

Fixpoint sort_createdAt_desc (l : list order) : list order :=
  match l with
  | [] => []
  | o :: rest => insert_desc o (sort_createdAt_desc rest)
  end.

(** [new Order({ ..., status })] followed by [save()]: the body is cast to
    the schema, the document gets a new [_id], the enum validator runs on
    [status], and both timestamps are set to the time of the save.  A cast
    error rejects the save.  A missing [userDetails] is stored as the
    nested path with no field. *)
Definition save_new (env : Env) (db : DB) (b : OrderBody) (st : string) : Async DB :=
  if store_ok env then
    match castOrder b with
    | None => reject
    | Some f =>
        if existsb (String.eqb st) status_enum then
          resolve {| foodItems := foodItems db;
                     orders := orders db ++
                       [{| o_id := next_id db;
                           userDetails := match of_userDetails f with
                                          | Some d => d
                                          | None => {| ud_name := None; ud_email := None |}
                                          end;
                           orderDetails := of_orderDetails f;
                           totalAmount := of_totalAmount f;
                           paymentMethod := of_paymentMethod f;
                           status := st;
                           createdAt := now env;
                           updatedAt := now env |}];
                     users := users db;
                     next_id := S (next_id db) |}
        else reject
    end
  else reject.

Definition set_status (st : string) (t : Z) (o : order) : order :=
  {| o_id := o_id o;
     userDetails := userDetails o;
     orderDetails := orderDetails o;
     totalAmount := totalAmount o;
     paymentMethod := paymentMethod o;
     status := st;
     createdAt := createdAt o;
     updatedAt := t |}.

Fixpoint update_first (id : ObjectId) (f : order -> order) (l : list order)
  : list order :=
  match l with
  | [] => []
  | o :: rest => if Nat.eqb (o_id o) id then f o :: rest else o :: update_first id f rest
  end.

Fixpoint remove_first (id : ObjectId) (l : list order) : list order :=
  match l with
  | [] => []
  | o :: rest => if Nat.eqb (o_id o) id then rest else o :: remove_first id rest
  end.

Definition by_id (id : ObjectId) (o : order) : bool := Nat.eqb (o_id o) id.

(** The cast of an update value to the String type of the path. *)
Definition cast_string (v : JsValue) : option string :=
  match v with
  | JsString s => Some s
  | _ => None
  end.

(** [Order.findByIdAndUpdate(id, { status }, { new: true, runValidators:
    true })]: the id is cast to an ObjectId, the value is cast and
    validated against the enum, the first document with the id gets the
    status and a new [updatedAt], and the updated document is returned, or
    null when no document has the id.  A cast error rejects the call. *)
Definition findByIdAndUpdate (env : Env) (db : DB) (id : string) (st : JsValue)
  : Async (option order * DB) :=
  if store_ok env then
    match castObjectId id with
    | None => reject
    | Some oid =>
        match cast_string st with
        | None => reject
        | Some s =>
            if existsb (String.eqb s) status_enum then
              match List.find (by_id oid) (orders db) with
              | None => resolve (None, db)
              | Some o =>
                  resolve (Some (set_status s (now env) o),
                           {| foodItems := foodItems db;
                              orders := update_first oid (set_status s (now env)) (orders db);
                              users := users db;
                              next_id := next_id db |})
              end
            else reject
        end
    end
  else reject.

(** [Order.findByIdAndDelete(id)]: the id is cast to an ObjectId and the
    first document with the id is removed and returned, or null when no
    document has the id.  A cast error rejects the call. *)
Definition findByIdAndDelete (env : Env) (db : DB) (id : string)
  : Async (option order * DB) :=
  if store_ok env then
    match castObjectId id with
    | None => reject
    | Some oid =>
        match List.find (by_id oid) (orders db) with
        | None => resolve (None, db)
        | Some o => resolve (Some o, {| foodItems := foodItems db;
                                        orders := remove_first oid (orders db);
                                        users := users db;
                                        next_id := next_id db |})
        end
    end
  else reject.

End Model.
End Order.

Module User.

(** [User.findOne(filter)]: the first document that matches, in insertion
    order. *)
Definition findOne (env : Env) (db : DB) (filter : user -> bool) : Async (option user) :=
  if store_ok env then resolve (List.find filter (users db)) else reject.

(** [new User({ ... })]. *)
Definition new (db : DB) (name mobile email password image : option string) : user :=
  {| u_id := next_id db;
     u_name := name;
     u_mobile := mobile;
     u_email := email;
     u_password := password;
     u_profileImage := image |}.

(** A key of the unique indexes on [mobile] and [email] that the document
    shares with a stored one; a missing field is indexed as null. *)
Definition duplicate_key (db : DB) (doc : user) : bool :=
  existsb (fun u => option_eqb (u_mobile u) (u_mobile doc)
                    || option_eqb (u_email u) (u_email doc)) (users db).

(** [doc.save()] of a new document: the required validators run, then the
    insert, which the unique indexes can refuse. *)
Definition save (env : Env) (db : DB) (doc : user) : Async DB :=
  if store_ok env then
    if required (u_name doc) && required (u_password doc) then
      if duplicate_key db doc then reject
      else resolve {| foodItems := foodItems db;
                      orders := orders db;
                      users := users db ++ [doc];
                      next_id := S (next_id db) |}
    else reject
  else reject.

End User.

(** ** Requests and responses *)

(** The part of a request the guard reads and writes: the Authorization
    header and [req.user]. *)
Record Request := {
  authorization : option string;
  req_user : option Payload
}.

Definition set_user (req : Request) (payload : Payload) : Request :=
  {| authorization := authorization req; req_user := Some payload |}.

(** Text fields of the multipart body of POST /food-items. *)
Record FoodItemBody := {
  fb_name : option string;
  fb_price : option string;
  fb_description : option string;
  fb_type : option string
}.

(** Text fields of the multipart body of the sign-up routes. *)
Record SignupBody := {
  sb_name : option string;
  sb_mobile : option string;
  sb_email : option string;
  sb_password : string
}.

(** JSON body of the sign-in routes: the two fields the handler takes
    from [req.body], each any JSON value or undefined. *)
Record SigninBody := {
  identifier : JsValue;
  password : JsValue
}.

Inductive Body :=
| Text (s : string)
| Message (message : string)
| MessageError (message : string)
| FoodItems (items : list foodItem)
| FoodItemJson (item : foodItem)
| FoodItemDeleted (item : foodItem)
| Orders (docs : list order)
| OrderJson (doc : order)
| OrderNotFound (id : string)
| OrderDeleted (doc : order)
| AuthJson (token : string) (name : option string) (email : option string)
| Profile (doc : user).

Record Response := {
  code : nat;
  body : Body
}.

Definition send (c : nat) (text : string) : Response := {| code := c; body := Text text |}.
Definition json (c : nat) (b : Body) : Response := {| code := c; body := b |}.

Definition str (v : option string) : string :=
  match v with
  | Some s => s
  | None => ""
  end.

(** ** The server *)

Section Server.
Context `{jwt.Package} `{Bcrypt} `{Mongoose}.

(** The cast of a text field to the Number type of a schema path; [None]
    is a cast error. *)
Variable Number_cast : string -> option Q.

Definition JWT_SECRET : string :=
  "dc5e41e784f5ba8ce43921796f63300d056dc05dde9630afeef50249a2294863ac92a11433ac5c9e44215e694282ba2b1c11001b78000463c6bac5910415a841".

(** [req.header('Authorization')?.split(' ')[1]] *)
Definition bearer (req : Request) : option string :=
  match authorization req with
  | None => None
  | Some h => nth_error (Js.split " " h) 1
  end.

(** The middleware: a response when the request is turned away, the
    request with [req.user] set when [next()] is called. *)
Definition authenticateJWT (env : Env) (req : Request) : Response + Request :=
  let token := bearer req in
  if Js.falsy token then inl (send 401 "Access denied")
  else match jwt.verify (str token) JWT_SECRET (now env) with
       | inl _ => inl (send 403 "Invalid token")
       | inr payload => inr (set_user req payload)
       end.

(** A route registered with the middleware before its handler. *)
Definition guarded (handler : Env -> DB -> Request -> Response * DB)
    (env : Env) (db : DB) (req : Request) : Response * DB :=
  match authenticateJWT env req with
  | inl response => (response, db)
  | inr req' => handler env db req'
  end.

(** GET /food-items *)
Definition get_food_items (env : Env) (db : DB) : Response * DB :=
  try_catch
    (items <- FoodItem.find env db ;;
     resolve (json 200 (FoodItems items), db))
    (json 500 (MessageError "Error fetching food items"), db).

(** POST /food-items *)
Definition post_food_items (env : Env) (db : DB) (b : FoodItemBody)
    (file : option string) : Response * DB :=
  try_catch
    (let imagePath := file in
     if Js.falsy (fb_name b) || Js.falsy (fb_price b) || Js.falsy (fb_description b)
        || Js.falsy (fb_type b) || Js.falsy imagePath
     then resolve (json 400 (Message "All fields are required"), db)
     else
       price <- Number_cast (str (fb_price b)) ;;
       let newFoodItem := {| fi_id := uuid env;
                             fi_name := str (fb_name b);
                             fi_image := str imagePath;
                             fi_price := price;
                             fi_description := str (fb_description b);
                             fi_type := str (fb_type b) |} in
       db' <- FoodItem.save env db newFoodItem ;;
       resolve (json 201 (FoodItemJson newFoodItem), db'))
    (json 400 (MessageError "Error adding food item"), db).

(** DELETE /food-items/:id *)
Definition delete_food_items (env : Env) (db : DB) (id : string) : Response * DB :=
  try_catch
    (r <- FoodItem.findByIdAndDelete env db id ;;
     match fst r with
     | None => resolve (json 404 (Message "Food item not found"), db)
     | Some deletedFoodItem => resolve (json 200 (FoodItemDeleted deletedFoodItem), snd r)
     end)
    (json 500 (MessageError "Error deleting food item"), db).

(** POST /api/uploadImage *)
Definition post_uploadImage (db : DB) (file : option string) : Response * DB :=
  match file with
  | None => (json 400 (Message "No file uploaded"), db)
  | Some path => (send 200 ("File uploaded: " ++ path), db)
  end.

(** The filter [{ 'userDetails.email': email }]; an undefined value is sent
    as null and matches the documents without the field. *)
Definition by_email (email : option string) (o : order) : bool :=
  option_eqb (ud_email (userDetails o)) email.

(** GET /orders, after the middleware *)
Definition get_orders_handler (env : Env) (db : DB) (req : Request) : Response * DB :=
  try_catch
    (payload <- req_user req ;;
     let email := claim_email payload in
     found <- Order.find env db (by_email email) ;;
     let orders := Order.sort_createdAt_desc found in
     if (List.length orders =? 0)%nat
     then resolve (json 404 (Message "No orders found for this user"), db)
     else resolve (json 200 (Orders orders), db))
    (json 500 (MessageError "Error fetching orders"), db).

Definition get_orders : Env -> DB -> Request -> Response * DB :=
  guarded get_orders_handler.

(** GET /allorders *)
Definition get_allorders (env : Env) (db : DB) : Response * DB :=
  try_catch
    (found <- Order.find env db (fun _ => true) ;;
     let allOrders := Order.sort_createdAt_desc found in
     if (List.length allOrders =? 0)%nat
     then resolve (json 404 (Message "No orders found"), db)
     else resolve (json 200 (Orders allOrders), db))
    (json 500 (MessageError "Error fetching all orders"), db).

(** POST /orders *)
Definition post_orders (env : Env) (db : DB) (b : OrderBody) : Response * DB :=
  try_catch
    (db' <- Order.save_new env db b "Pending" ;;
     resolve (json 201 (Message "Order submitted successfully"), db'))
    (json 500 (Message "Failed to submit order"), db).

(** [['Pending', 'Delivered', 'Rejected'].includes(status)] *)
Definition includes (l : list string) (v : JsValue) : bool :=
  match v with
  | JsString s => existsb (String.eqb s) l
  | _ => false
  end.

(** PUT /orders/:id *)
Definition put_orders (env : Env) (db : DB) (id : string) (st : JsValue)
  : Response * DB :=
  try_catch
    (if negb (includes ["Pending"; "Delivered"; "Rejected"] st)
     then resolve (json 400 (Message "Invalid status"), db)
     else
       r <- Order.findByIdAndUpdate env db id st ;;
       match fst r with
       | None => resolve (json 404 (OrderNotFound id), db)
       | Some updatedOrder => resolve (json 200 (OrderJson updatedOrder), snd r)
       end)
    (json 500 (MessageError "Error updating order"), db).

(** DELETE /orders/:id *)
Definition delete_orders (env : Env) (db : DB) (id : string) : Response * DB :=
  try_catch
    (r <- Order.findByIdAndDelete env db id ;;
     match fst r with
     | None => resolve (json 404 (Message "Order not found"), db)
     | Some deletedOrder => resolve (json 200 (OrderDeleted deletedOrder), snd r)
     end)
    (json 500 (MessageError "Error deleting order"), db).

(** The filter [{ $or: [{ email }, { mobile }] }] of the sign-up routes; an
    undefined value is sent as null and matches the documents without the
    field. *)
Definition email_or_mobile (email mobile : option string) (u : user) : bool :=
  option_eqb (u_email u) email || option_eqb (u_mobile u) mobile.

(** POST /signup *)
Definition signup (env : Env) (db : DB) (b : SignupBody) (file : option string)
  : Response * DB :=
  let name := sb_name b in
  let mobile := sb_mobile b in
  let email := sb_email b in
  let password := sb_password b in
  try_catch
    (existingUser <- User.findOne env db (email_or_mobile email mobile) ;;
     match existingUser with
     | Some _ => resolve (send 400 "Email or mobile number already in use", db)
     | None =>
         let hashedPassword := bcrypt_hash password (salt env) in
         let user := User.new db name mobile email (Some hashedPassword) file in
         db' <- User.save env db user ;;
         let token := jwt.sign {| claim_email := u_email user; claim_iat := None |}
                               JWT_SECRET (now env) in
         resolve (json 201 (AuthJson token (u_name user) (u_email user)), db')
     end)
    (send 500 "Error registering user", db).

(** POST /adminsignup *)
Definition adminsignup (env : Env) (db : DB) (b : SignupBody) (file : option string)
  : Response * DB :=
  let name := sb_name b in
  let mobile := sb_mobile b in
  let email := sb_email b in
  let password := sb_password b in
  try_catch
    (existingUser <- User.findOne env db (email_or_mobile email mobile) ;;
     match existingUser with
     | Some _ => resolve (send 400 "Email or mobile number already in use", db)
     | None =>
         let hashedPassword := bcrypt_hash password (salt env) in
         let user := User.new db name mobile email (Some hashedPassword) file in
         db' <- User.save env db user ;;
         let token := jwt.sign {| claim_email := u_email user; claim_iat := None |}
                               JWT_SECRET (now env) in
         resolve (json 201 (AuthJson token (u_name user) (u_email user)), db')
     end)
    (send 500 "Error registering user", db).

(** The filter [{ $or: [{ email: identifier }, { mobile: identifier }] }]
    of the sign-in routes: the identifier is cast on both String paths, and
    a cast error rejects the query. *)
Definition by_identifier (identifier : JsValue) : Async (user -> bool) :=
  condition <- castFilter identifier ;;
  resolve (fun u => condition (u_email u) || condition (u_mobile u)).

(** [bcrypt.compare(password, user.password)]; the call is rejected when
    one of the two is not a string. *)
Definition compare_stored (password : JsValue) (stored : option string) : Async bool :=
  match password, stored with
  | JsString s, Some h => resolve (bcrypt_compare s h)
  | _, _ => reject
  end.

(** POST /signin *)
Definition signin (env : Env) (db : DB) (b : SigninBody) : Response * DB :=
  try_catch
    (filter <- by_identifier (identifier b) ;;
     found <- User.findOne env db filter ;;
     match found with
     | None => resolve (send 401 "Invalid credentials", db)
     | Some user =>
         isMatch <- compare_stored (password b) (u_password user) ;;
         if negb isMatch then resolve (send 401 "Invalid credentials", db)
         else
           let token := jwt.sign {| claim_email := u_email user; claim_iat := None |}
                                 JWT_SECRET (now env) in
           resolve (json 200 (AuthJson token (u_name user) (u_email user)), db)
     end)
    (send 500 "Error signing in", db).

(** POST /adminsignin *)
Definition adminsignin (env : Env) (db : DB) (b : SigninBody) : Response * DB :=
  try_catch
    (filter <- by_identifier (identifier b) ;;
     found <- User.findOne env db filter ;;
     match found with
     | None => resolve (send 401 "Invalid credentials", db)
     | Some user =>
         isMatch <- compare_stored (password b) (u_password user) ;;
         if negb isMatch then resolve (send 401 "Invalid credentials", db)
         else
           let token := jwt.sign {| claim_email := u_email user; claim_iat := None |}
                                 JWT_SECRET (now env) in
           resolve (json 200 (AuthJson token (u_name user) (u_email user)), db)
     end)
    (send 500 "Error signing in", db).

(** [.select('-password')] *)
Definition without_password (u : user) : user :=
  {| u_id := u_id u;
     u_name := u_name u;
     u_mobile := u_mobile u;
     u_email := u_email u;
     u_password := None;
     u_profileImage := u_profileImage u |}.

(** GET /profile, after the middleware *)
Definition get_profile_handler (env : Env) (db : DB) (req : Request) : Response * DB :=
  try_catch
    (payload <- req_user req ;;
     found <- User.findOne env db (fun u => option_eqb (u_email u) (claim_email payload)) ;;
     match found with
     | None => resolve (json 404 (Message "User not found"), db)
     | Some user => resolve (json 200 (Profile (without_password user)), db)
     end)
    (json 500 (MessageError "Error fetching user profile"), db).

Definition get_profile : Env -> DB -> Request -> Response * DB :=
  guarded get_profile_handler.

(** GET /protected *)
Definition get_protected : Env -> DB -> Request -> Response * DB :=
  guarded (fun _ db _ => (send 200 "This is a protected route", db)).

(** The routes of the application. *)
Inductive Call :=
| GET_food_items
| POST_food_items (b : FoodItemBody) (file : option string)
| DELETE_food_items (id : string)
| POST_uploadImage (file : option string)
| GET_orders (req : Request)
| GET_allorders
| POST_orders (b : OrderBody)
| PUT_orders (id : string) (st : JsValue)
| DELETE_orders (id : string)
| POST_signup (b : SignupBody) (file : option string)
| POST_adminsignup (b : SignupBody) (file : option string)
| POST_signin (b : SigninBody)
| POST_adminsignin (b : SigninBody)
| GET_profile (req : Request)
| GET_protected (req : Request).

Definition handle (env : Env) (db : DB) (c : Call) : Response * DB :=
  match c with
  | GET_food_items => get_food_items env db
  | POST_food_items b file => post_food_items env db b file
  | DELETE_food_items id => delete_food_items env db id
  | POST_uploadImage file => post_uploadImage db file
  | GET_orders req => get_orders env db req
  | GET_allorders => get_allorders env db
  | POST_orders b => post_orders env db b
  | PUT_orders id st => put_orders env db id st
  | DELETE_orders id => delete_orders env db id
  | POST_signup b file => signup env db b file
  | POST_adminsignup b file => adminsignup env db b file
  | POST_signin b => signin env db b
  | POST_adminsignin b => adminsignin env db b
  | GET_profile req => get_profile env db req
  | GET_protected req => get_protected env db req
  end.

(** A run of the server: the calls are served one after the other, each
    in its own environment. *)
Fixpoint run (db : DB) (calls : list (Env * Call)) : DB :=
  match calls with
  | [] => db
  | (env, c) :: rest => run (snd (handle env db c)) rest
  end.

End Server.

(** ** An instance of the interfaces

    The laws of the interfaces can be met: tokens that spell out the
    secret, the email and the second of issue in binary digits, a hash
    that is the marked password, and casts that accept the JSON of the
    schema types and ids of 24 hexadecimal digits.  The instance serves to
    run the model on concrete requests.  It is not the packages: where the
    laws leave an answer open (a numeric string for a Number, a string of
    twelve characters for an ObjectId, a token signed elsewhere), the
    instance refuses, and the theorems do not depend on it. *)

Module Reference.

Definition digit (b : bool) : ascii := if b then "1"%char else "0"%char.

Definition read_digit (c : ascii) : option bool :=
  if Ascii.eqb c "1" then Some true
  else if Ascii.eqb c "0" then Some false
  else None.

Fixpoint to_bits (s : string) : string :=
  match s with
  | EmptyString => EmptyString
  | String (Ascii b0 b1 b2 b3 b4 b5 b6 b7) rest =>
      String (digit b0) (String (digit b1) (String (digit b2) (String (digit b3)
      (String (digit b4) (String (digit b5) (String (digit b6) (String (digit b7)
      (to_bits rest))))))))
  end.

Fixpoint of_bits (s : string) : option string :=
  match s with
  | EmptyString => Some EmptyString
  | String c0 (String c1 (String c2 (String c3
      (String c4 (String c5 (String c6 (String c7 rest))))))) =>
      match read_digit c0, read_digit c1, read_digit c2, read_digit c3,
            read_digit c4, read_digit c5, read_digit c6, read_digit c7,
            of_bits rest with
      | Some b0, Some b1, Some b2, Some b3, Some b4, Some b5, Some b6, Some b7,
        Some r => Some (String (Ascii b0 b1 b2 b3 b4 b5 b6 b7) r)
      | _, _, _, _, _, _, _, _, _ => None
      end
  | _ => None
  end.

Definition encode_email (email : option string) : string :=
  match email with
  | None => "n"
  | Some e => String "e" (to_bits e)
  end.

Definition decode_email (s : string) : option (option string) :=
  match s with
  | String c rest =>
      if Ascii.eqb c "n" then
        match rest with
        | EmptyString => Some None
        | _ => None
        end
      else if Ascii.eqb c "e" then
        match of_bits rest with
        | Some e => Some (Some e)
        | None => None
        end
      else None
  | EmptyString => None
  end.

Fixpoint pos_bits (p : positive) : string :=
  match p with
  | xH => EmptyString
  | xO q => String "0" (pos_bits q)
  | xI q => String "1" (pos_bits q)
  end.

Fixpoint bits_pos (s : string) : option positive :=
  match s with
  | EmptyString => Some xH
  | String c rest =>
      match read_digit c, bits_pos rest with
      | Some true, Some q => Some (xI q)
      | Some false, Some q => Some (xO q)
      | _, _ => None
      end
  end.

Definition encode_Z (z : Z) : string :=
  match z with
  | Z0 => "z"
  | Zpos p => String "p" (pos_bits p)
  | Zneg p => String "m" (pos_bits p)
  end.

Definition decode_Z (s : string) : option Z :=
  match s with
  | String c rest =>
      if Ascii.eqb c "z" then
        match rest with
        | EmptyString => Some Z0
        | _ => None
        end
      else if Ascii.eqb c "p" then option_map Zpos (bits_pos rest)
      else if Ascii.eqb c "m" then option_map Zneg (bits_pos rest)
      else None
  | EmptyString => None
  end.

Definition sign (payload : Payload) (secret : string) (issued : Z) : string :=
  let iat := match claim_iat payload with
             | Some t => t
             | None => (issued / 1000)%Z
             end in
  to_bits secret ++ "." ++ encode_email (claim_email payload) ++ "." ++ encode_Z iat.

Definition verify (token secret : string) (checked : Z) : JwtError + Payload :=
  match Js.split "." token with
  | [key; email; iat] =>
      if String.eqb key (to_bits secret) then
        match decode_email email, decode_Z iat with
        | Some e, Some t => inr {| claim_email := e; claim_iat := Some t |}
        | _, _ => inl JsonWebTokenError
        end
      else inl JsonWebTokenError
  | _ => inl JsonWebTokenError
  end.

Definition hash (password salt : string) : string := "$2a$10$" ++ password.

Definition compare (password stored : string) : bool :=
  String.eqb stored ("$2a$10$" ++ password).

(** Decimal digits read as a number; anything else is a cast error. *)
Fixpoint digits (s : string) (acc : nat) : option nat :=
  match s with
  | EmptyString => Some acc
  | String c rest =>
      let n := nat_of_ascii c in
      if ((48 <=? n) && (n <=? 57))%nat then digits rest (10 * acc + (n - 48))
      else None
  end.

Definition number_cast (s : string) : option Q :=
  match s with
  | EmptyString => None
  | _ => match digits s 0 with
         | Some n => Some (inject_Z (Z.of_nat n))
         | None => None
         end
  end.


Definition hex_digit (c : ascii) : option N :=
  let n := N_of_ascii c in
  if ((48 <=? n) && (n <=? 57))%N then Some (n - 48)%N
  else if ((97 <=? n) && (n <=? 102))%N then Some (n - 87)%N
  else if ((65 <=? n) && (n <=? 70))%N then Some (n - 55)%N
  else None.

Fixpoint hex_value (s : string) (acc : N) : option N :=
  match s with
  | EmptyString => Some acc
  | String c rest =>
      match hex_digit c with
      | Some d => hex_value rest (16 * acc + d)%N
      | None => None
      end
  end.

Definition cast_id (id : string) : option ObjectId :=
  if Nat.eqb (String.length id) 24 then option_map N.to_nat (hex_value id 0%N) else None.

Fixpoint lookup (key : string) (fields : list (string * JsValue)) : JsValue :=
  match fields with
  | [] => JsUndefined
  | (k, v) :: rest => if String.eqb k key then v else lookup key rest
  end.

Definition cast_text (v : JsValue) : option (option string) :=
  match v with
  | JsUndefined | JsNull => Some None
  | JsString s => Some (Some s)
  | _ => None
  end.

Definition cast_number (v : JsValue) : option (option Q) :=
  match v with
  | JsUndefined | JsNull => Some None
  | JsNumber q => Some (Some q)
  | _ => None
  end.

Definition cast_userDetails (v : JsValue) : option (option userDetailsT) :=
  match v with
  | JsUndefined => Some None
  | JsObject fields =>
      match cast_text (lookup "name" fields), cast_text (lookup "email" fields) with
      | Some n, Some e => Some (Some {| ud_name := n; ud_email := e |})
      | _, _ => None
      end
  | _ => None
  end.

Definition cast_line (v : JsValue) : option orderLine :=
  match v with
  | JsObject fields =>
      match cast_text (lookup "foodName" fields),
            cast_number (lookup "foodPrice" fields),
            cast_number (lookup "quantity" fields) with
      | Some n, Some p, Some q => Some {| foodName := n; foodPrice := p; quantity := q |}
      | _, _, _ => None
      end
  | _ => None
  end.

Fixpoint cast_lines (items : list JsValue) : option (list orderLine) :=
  match items with
  | [] => Some []
  | item :: rest =>
      match cast_line item, cast_lines rest with
      | Some l, Some ls => Some (l :: ls)
      | _, _ => None
      end
  end.

Definition cast_orderDetails (v : JsValue) : option (list orderLine) :=
  match v with
  | JsUndefined => Some []
  | JsArray items => cast_lines items
  | _ => None
  end.

Definition cast_order (b : OrderBody) : option orderFields :=
  match cast_userDetails (ob_userDetails b), cast_orderDetails (ob_orderDetails b),
        cast_number (ob_totalAmount b), cast_text (ob_paymentMethod b) with
  | Some d, Some ls, Some t, Some m =>
      Some {| of_userDetails := d; of_orderDetails := ls;
              of_totalAmount := t; of_paymentMethod := m |}
  | _, _, _, _ => None
  end.

Definition cast_filter (v : JsValue) : option (option string -> bool) :=
  match v with
  | JsString s => Some (fun field => option_eqb field (Some s))
  | JsUndefined | JsNull => Some (fun field => option_eqb field None)
  | _ => None
  end.

End Reference.

(** ** Notions of the statements *)

Open Scope string_scope.

(** The status stored under an order id. *)
Definition status_of (db : DB) (id : ObjectId) : option string :=
  option_map status (List.find (Order.by_id id) (orders db)).

(** Every stored order has an id below the next one to be drawn. *)
Definition wf (db : DB) : Prop :=
  Forall (fun o => o_id o < next_id db) (orders db).

(** Every stored order with the id has status Pending. *)
Definition all_pending (db : DB) (id : ObjectId) : Prop :=
  Forall (fun o => o_id o = id -> status o = "Pending") (orders db).

(** The call is a status update, a deletion, of the order [id]: its route
    parameter casts to the id. *)
Definition is_put `{Mongoose} (id : ObjectId) (c : Call) : bool :=
  match c with
  | PUT_orders j _ =>
      match castObjectId j with
      | Some oid => Nat.eqb oid id
      | None => false
      end
  | _ => false
  end.

Definition is_delete `{Mongoose} (id : ObjectId) (c : Call) : bool :=
  match c with
  | DELETE_orders j =>
      match castObjectId j with
      | Some oid => Nat.eqb oid id
      | None => false
      end
  | _ => false
  end.

(** The call places an order. *)
Definition is_post_orders (c : Call) : bool :=
  match c with
  | POST_orders _ => true
  | _ => false
  end.

(** The order POST /orders stores for the fields a body casts to. *)
Definition placed (env : Env) (db : DB) (f : orderFields) : order :=
  {| o_id := next_id db;
     userDetails := match of_userDetails f with
                    | Some d => d
                    | None => {| ud_name := None; ud_email := None |}
                    end;
     orderDetails := of_orderDetails f;
     totalAmount := of_totalAmount f;
     paymentMethod := of_paymentMethod f;
     status := "Pending";
     createdAt := now env;
     updatedAt := now env |}.

(** The database with its orders and its next id replaced. *)
Definition with_orders (db : DB) (l : list order) (n : ObjectId) : DB :=
  {| foodItems := foodItems db; orders := l; users := users db; next_id := n |}.

(** [a] comes before [b] in an answer sorted by creation time, most recent
    first. *)
Definition not_older (a b : order) : Prop := (createdAt b <= createdAt a)%Z.

(** The calls of the routes that never write: the listings, the sign-in
    routes, the profile, the protected route and the upload. *)
Definition reads_only (c : Call) : bool :=
  match c with
  | GET_food_items | POST_uploadImage _ | GET_orders _ | GET_allorders
  | POST_signin _ | POST_adminsignin _ | GET_profile _ | GET_protected _ => true
  | _ => false
  end.

(** The ids of the stored orders. *)
Definition order_ids (db : DB) : list ObjectId := List.map o_id (orders db).

(** The ids of the stored food items. *)
Definition food_ids (db : DB) : list string := List.map fi_id (foodItems db).

(** The values that are present in a list of optional fields. *)
Fixpoint present (l : list (option string)) : list string :=
  match l with
  | [] => []
  | Some x :: rest => x :: present rest
  | None :: rest => present rest
  end.

(** The payload the server signs for an email, and the payload a token
    signed at a time of the clock verifies to. *)
Definition signed (email : option string) : Payload :=
  {| claim_email := email; claim_iat := None |}.

Definition issued_at (email : option string) (t : Z) : Payload :=
  {| claim_email := email; claim_iat := Some (t / 1000)%Z |}.

(** ** Concrete requests *)

Module Sample.

Definition env0 : Env := {| now := 1000; store_ok := true; salt := "salt"; uuid := "u1" |}.
Definition env1 : Env := {| now := 2000; store_ok := true; salt := "pepper"; uuid := "u2" |}.
Definition down : Env := {| now := 3000; store_ok := false; salt := "salt"; uuid := "u3" |}.

Definition alice : Payload := issued_at (Some "a@x.com") 1000.
Definition nobody : Payload := issued_at None 1000.

(** The token of a sign-up or sign-in of alice in [env0]. *)
Definition alice_token : string := Reference.sign (signed (Some "a@x.com")) JWT_SECRET 1000.
Definition nobody_token : string := Reference.sign (signed None) JWT_SECRET 1000.

Definition burger_fields : orderFields :=
  {| of_userDetails := Some {| ud_name := Some "Alice"; ud_email := Some "a@x.com" |};
     of_orderDetails := [{| foodName := Some "Burger";
                            foodPrice := Some (5 # 1)%Q;
                            quantity := Some (2 # 1)%Q |}];
     of_totalAmount := Some (10 # 1)%Q;
     of_paymentMethod := Some "cash" |}.

Definition burger : OrderBody := json_order burger_fields.

Definition empty_fields : orderFields :=
  {| of_userDetails := None;
     of_orderDetails := [];
     of_totalAmount := None;
     of_paymentMethod := None |}.

(** A body with no purchaser snapshot and an empty line list. *)
Definition empty_order : OrderBody :=
  {| ob_userDetails := JsUndefined;
     ob_orderDetails := JsArray [];
     ob_totalAmount := JsUndefined;
     ob_paymentMethod := JsUndefined |}.

(** Two bodies whose total is not a number. *)
Definition malformed_order : OrderBody :=
  {| ob_userDetails := ob_userDetails burger;
     ob_orderDetails := ob_orderDetails burger;
     ob_totalAmount := JsString "ten";
     ob_paymentMethod := JsString "cash" |}.

Definition listed_total : OrderBody :=
  {| ob_userDetails := ob_userDetails burger;
     ob_orderDetails := ob_orderDetails burger;
     ob_totalAmount := JsArray [JsNumber (10 # 1)%Q];
     ob_paymentMethod := JsString "cash" |}.

Definition alice_signup : SignupBody :=
  {| sb_name := Some "Alice";
     sb_mobile := Some "555";
     sb_email := Some "a@x.com";
     sb_password := "pw1" |}.

Definition alice_user : user :=
  {| u_id := 0;
     u_name := Some "Alice";
     u_mobile := Some "555";
     u_email := Some "a@x.com";
     u_password := Some (Reference.hash "pw1" "salt");
     u_profileImage := None |}.

Definition with_alice : DB :=
  {| foodItems := []; orders := []; users := [alice_user]; next_id := 1 |}.

Definition burger_order : order :=
  {| o_id := 0;
     userDetails := {| ud_name := Some "Alice"; ud_email := Some "a@x.com" |};
     orderDetails := of_orderDetails burger_fields;
     totalAmount := Some (10 # 1)%Q;
     paymentMethod := Some "cash";
     status := "Delivered";
     createdAt := 1000;
     updatedAt := 1500 |}.


Definition with_burger : DB :=
  {| foodItems := []; orders := [burger_order]; users := []; next_id := 1 |}.


(** The route parameters of the ids 0, 1 and 7, and one that is no id. *)
Definition id0 : string := "000000000000000000000000".
Definition id1 : string := "000000000000000000000001".
Definition id7 : string := "000000000000000000000007".
Definition no_id : string := "7".

Definition no_header : Request := {| authorization := None; req_user := None |}.

Definition bearing (token : string) : Request :=
  {| authorization := Some ("Bearer " ++ token); req_user := None |}.

Definition later_calls : list (Env * Call) :=
  [(env1, GET_allorders);
   (env1, POST_orders empty_order);
   (env1, PUT_orders id1 (JsString "Delivered"));
   (env1, PUT_orders no_id (JsString "Delivered"));
   (env1, DELETE_orders id1);
   (env1, POST_signup alice_signup None)].

End Sample.

Module Cases.

Definition pizza_body : FoodItemBody :=
  {| fb_name := Some "Pizza";
     fb_price := Some "12";
     fb_description := Some "Margherita";
     fb_type := Some "main" |}.

Definition nameless_body : FoodItemBody :=
  {| fb_name := Some "";
     fb_price := Some "12";
     fb_description := Some "Margherita";
     fb_type := Some "main" |}.

Definition pizza : foodItem :=
  {| fi_id := "u1";
     fi_name := "Pizza";
     fi_image := "uploads/1.png";
     fi_price := inject_Z 12;
     fi_description := "Margherita";
     fi_type := "main" |}.

Definition with_pizza : DB :=
  {| foodItems := [pizza]; orders := []; users := []; next_id := 0 |}.

Definition nameless_signup : SignupBody :=
  {| sb_name := None;
     sb_mobile := Some "777";
     sb_email := Some "c@x.com";
     sb_password := "pw3" |}.

Definition signing_in : SigninBody :=
  {| identifier := JsString "555"; password := JsString "pw1" |}.

(** A user registered with a mobile number and no email. *)
Definition carol_user : user :=
  {| u_id := 0;
     u_name := Some "Carol";
     u_mobile := Some "999";
     u_email := None;
     u_password := Some (Reference.hash "pw9" "salt");
     u_profileImage := None |}.

Definition with_carol : DB :=
  {| foodItems := []; orders := []; users := [carol_user]; next_id := 1 |}.

End Cases.

(** ** Tactics *)

(** Promises unfolded to their option. *)
Ltac unfold_async :=
  unfold try_catch, bind, resolve, reject in *.

(** Case analysis on every test a handler makes, innermost first. *)
Ltac split_tests :=
  repeat match goal with
         | |- context [match ?x with _ => _ end] =>
             lazymatch x with
             | context [match _ with _ => _ end] => fail
             | _ => destruct x eqn:?
             end
         end.

(** The handlers and the Mongoose calls unfolded to their tests. *)
Ltac unfold_handlers :=
  unfold get_food_items, post_food_items, delete_food_items, post_uploadImage,
    get_orders, get_allorders, post_orders, put_orders, delete_orders,
    signup, adminsignup, signin, adminsignin, get_profile, get_protected,
    guarded, get_orders_handler, get_profile_handler, authenticateJWT,
    FoodItem.find, FoodItem.save, FoodItem.findByIdAndDelete,
    Order.find, Order.save_new, Order.findByIdAndUpdate, Order.findByIdAndDelete,
    User.findOne, User.save, compare_stored, by_identifier in *;
  unfold_async.

(** ** Strings *)

Section Strings.

Lemma split_nonempty (sep : ascii) (s : string) : Js.split sep s <> [].
Proof.
  destruct s as [|c s]; cbn [Js.split]; [discriminate|].
  destruct (Ascii.eqb c sep); [discriminate|].
  destruct (Js.split sep s); discriminate.
Qed.

Lemma split_free (sep : ascii) (s : string) :
  Js.free sep s = true -> Js.split sep s = [s].
Proof.
  induction s as [|c s IH]; cbn [Js.free Js.split]; [reflexivity|].
  intros Hf. apply andb_prop in Hf. destruct Hf as [Hc Hs].
  apply negb_true_iff in Hc. rewrite Hc, (IH Hs). reflexivity.
Qed.

Lemma split_app (sep : ascii) (a b : string) :
  Js.free sep a = true ->
  Js.split sep (a ++ String sep b) = a :: Js.split sep b.
Proof.
  induction a as [|c a IH]; cbn [Js.free Js.split String.append].
  - intros _. rewrite Ascii.eqb_refl. reflexivity.
  - intros Hf. apply andb_prop in Hf. destruct Hf as [Hc Ha].
    apply negb_true_iff in Hc. rewrite Hc, (IH Ha). reflexivity.
Qed.

Lemma b64url_free (sep : ascii) (s : string) :
  Js.b64url_char sep = false -> Js.b64url s = true -> Js.free sep s = true.
Proof.
  intros Hsep. induction s as [|c s IH]; cbn [Js.b64url Js.free]; [reflexivity|].
  intros Hb. apply andb_prop in Hb. destruct Hb as [Hc Hs].
  rewrite (IH Hs), andb_true_r. apply negb_true_iff.
  destruct (Ascii.eqb_spec c sep) as [->|]; [congruence|reflexivity].
Qed.

Lemma append_assoc (a b c : string) : ((a ++ b) ++ c = a ++ (b ++ c))%string.
Proof.
  induction a as [|x a IH]; cbn [String.append]; [reflexivity|].
  rewrite IH. reflexivity.
Qed.

Lemma free_app (sep : ascii) (a b : string) :
  Js.free sep (a ++ b) = Js.free sep a && Js.free sep b.
Proof.
  induction a as [|c a IH]; cbn [Js.free String.append]; [reflexivity|].
  rewrite IH, andb_assoc. reflexivity.
Qed.

End Strings.

(** ** The interfaces are inhabited *)

Module ReferenceLaws.
Import Reference.

Lemma of_bits_to_bits (s : string) : of_bits (to_bits s) = Some s.
Proof.
  induction s as [|a s IH]; [reflexivity|].
  destruct a as [[] [] [] [] [] [] [] []]; cbn [to_bits of_bits digit];
    cbn [read_digit Ascii.eqb Bool.eqb]; cbn; rewrite IH; reflexivity.
Qed.

Lemma to_bits_b64url (s : string) : Js.b64url (to_bits s) = true.
Proof.
  induction s as [|a s IH]; [reflexivity|].
  destruct a as [[] [] [] [] [] [] [] []]; cbn [to_bits Js.b64url digit];
    rewrite IH; reflexivity.
Qed.

Lemma decode_encode_email (e : option string) : decode_email (encode_email e) = Some e.
Proof.
  destruct e as [e|]; unfold encode_email, decode_email; [|reflexivity].
  change (Ascii.eqb "e" "n") with false; change (Ascii.eqb "e" "e") with true.
  cbn iota. rewrite of_bits_to_bits. reflexivity.
Qed.

Lemma encode_email_b64url (e : option string) : Js.b64url (encode_email e) = true.
Proof.
  destruct e as [e|]; unfold encode_email; [|reflexivity].
  cbn [Js.b64url]. rewrite to_bits_b64url. reflexivity.
Qed.

Lemma bits_pos_bits (p : positive) : bits_pos (pos_bits p) = Some p.
Proof.
  induction p as [p IH|p IH|]; cbn [pos_bits bits_pos]; [| |reflexivity];
    rewrite IH; reflexivity.
Qed.

Lemma pos_bits_b64url (p : positive) : Js.b64url (pos_bits p) = true.
Proof.
  induction p as [p IH|p IH|]; cbn [pos_bits Js.b64url]; [| |reflexivity];
    rewrite IH; reflexivity.
Qed.

Lemma decode_encode_Z (z : Z) : decode_Z (encode_Z z) = Some z.
Proof.
  destruct z as [|p|p]; unfold encode_Z, decode_Z; [reflexivity| |].
  - change (Ascii.eqb "p" "z") with false; change (Ascii.eqb "p" "p") with true.
    cbn iota. rewrite bits_pos_bits. reflexivity.
  - change (Ascii.eqb "m" "z") with false; change (Ascii.eqb "m" "p") with false;
      change (Ascii.eqb "m" "m") with true.
    cbn iota. rewrite bits_pos_bits. reflexivity.
Qed.

Lemma encode_Z_b64url (z : Z) : Js.b64url (encode_Z z) = true.
Proof.
  destruct z as [|p|p]; unfold encode_Z; [reflexivity| |];
    cbn [Js.b64url]; rewrite pos_bits_b64url; reflexivity.
Qed.

Lemma split_token (a b c : string) :
  Js.b64url a = true -> Js.b64url b = true -> Js.b64url c = true ->
  Js.split "." (a ++ "." ++ b ++ "." ++ c) = [a; b; c].
Proof.
  intros Ha Hb Hc.
  change (a ++ "." ++ b ++ "." ++ c) with (a ++ String "." (b ++ String "." c)).
  rewrite split_app by (apply b64url_free; [reflexivity|exact Ha]).
  rewrite split_app by (apply b64url_free; [reflexivity|exact Hb]).
  rewrite split_free by (apply b64url_free; [reflexivity|exact Hc]).
  reflexivity.
Qed.

Lemma verify_sign (email : option string) (secret : string) (issued checked : Z) :
  secret <> "" ->
  verify (sign {| claim_email := email; claim_iat := None |} secret issued) secret checked
  = inr {| claim_email := email; claim_iat := Some (issued / 1000)%Z |}.
Proof.
  intros _. unfold verify, sign. cbn [claim_email claim_iat].
  rewrite split_token
    by first [apply to_bits_b64url|apply encode_email_b64url|apply encode_Z_b64url].
  rewrite String.eqb_refl, decode_encode_email, decode_encode_Z. reflexivity.
Qed.

Lemma sign_token (payload : Payload) (secret : string) (issued : Z) :
  secret <> "" ->
  Js.free " " (sign payload secret issued) = true /\ sign payload secret issued <> "".
Proof.
  intros _. unfold sign. split.
  - rewrite !free_app.
    rewrite (b64url_free " " _ eq_refl (to_bits_b64url secret)).
    rewrite (b64url_free " " _ eq_refl (encode_email_b64url _)).
    rewrite (b64url_free " " _ eq_refl (encode_Z_b64url _)). reflexivity.
  - intros He. apply (f_equal (Js.free ".")) in He. rewrite free_app in He.
    cbn [Js.free String.append] in He. rewrite andb_false_r in He. discriminate He.
Qed.

Lemma compare_hash (password salt : string) : compare password (hash password salt) = true.
Proof. unfold compare, hash. apply String.eqb_refl. Qed.

Lemma cast_id_short (id : string) : String.length id < 12 -> cast_id id = None.
Proof.
  intros Hl. unfold cast_id.
  destruct (Nat.eqb_spec (String.length id) 24) as [He|_]; [lia|reflexivity].
Qed.

Lemma cast_lines_json (ls : list orderLine) :
  cast_lines (List.map json_line ls) = Some ls.
Proof.
  induction ls as [|l ls IH]; [reflexivity|].
  cbn [List.map cast_lines]. rewrite IH.
  destruct l as [[n|] [p|] [q|]]; reflexivity.
Qed.

Lemma cast_order_json (f : orderFields) : cast_order (json_order f) = Some f.
Proof.
  destruct f as [d ls t m]. unfold cast_order, json_order.
  cbn [ob_userDetails ob_orderDetails ob_totalAmount ob_paymentMethod
       of_userDetails of_orderDetails of_totalAmount of_paymentMethod cast_orderDetails].
  rewrite cast_lines_json.
  destruct d as [[[n|] [e|]]|], t as [t|], m as [m|]; reflexivity.
Qed.

Lemma cast_order_total_array (b : OrderBody) (items : list JsValue) :
  ob_totalAmount b = JsArray items -> cast_order b = None.
Proof.
  intros Ht. unfold cast_order. rewrite Ht. cbn [cast_number].
  destruct (cast_userDetails (ob_userDetails b)); [|reflexivity].
  destruct (cast_orderDetails (ob_orderDetails b)); reflexivity.
Qed.

Definition jwt : jwt.Package := {|
  jwt.sign := sign;
  jwt.verify := verify;
  jwt.verify_sign := verify_sign;
  jwt.sign_token := sign_token
|}.

Definition bcrypt : Bcrypt := {|
  bcrypt_hash := hash;
  bcrypt_compare := compare;
  bcrypt_compare_hash := compare_hash
|}.

Definition mongoose : Mongoose := {|
  castObjectId := cast_id;
  castObjectId_short := cast_id_short;
  castOrder := cast_order;
  castOrder_json := cast_order_json;
  castOrder_total_array := cast_order_total_array;
  castFilter := cast_filter;
  castFilter_string :=
    fun s => ex_intro _ (fun field => option_eqb field (Some s))
               (conj eq_refl (fun _ => eq_refl));
  castFilter_undefined :=
    ex_intro _ (fun field => option_eqb field None) (conj eq_refl (fun _ => eq_refl));
  castFilter_null :=
    ex_intro _ (fun field => option_eqb field None) (conj eq_refl (fun _ => eq_refl))
|}.

End ReferenceLaws.

(** ** The guard *)

Section Tokens.
Context `{jwt.Package} `{Mongoose}.

Lemma secret_not_empty : JWT_SECRET <> "".
Proof. unfold JWT_SECRET. discriminate. Qed.

Lemma verify_issued (email : option string) (issued checked : Z) :
  jwt.verify (jwt.sign (signed email) JWT_SECRET issued) JWT_SECRET checked
  = inr (issued_at email issued).
Proof. apply jwt.verify_sign. exact secret_not_empty. Qed.

Lemma sign_free_space (payload : Payload) (issued : Z) :
  Js.free " " (jwt.sign payload JWT_SECRET issued) = true.
Proof. exact (proj1 (jwt.sign_token payload JWT_SECRET issued secret_not_empty)). Qed.

Lemma sign_not_empty (payload : Payload) (issued : Z) :
  jwt.sign payload JWT_SECRET issued <> "".
Proof. exact (proj2 (jwt.sign_token payload JWT_SECRET issued secret_not_empty)). Qed.

(** A header of the form [Bearer <token>] carries the token as its
    credential. *)
Lemma bearer_standard (req : Request) (token : string) :
  authorization req = Some ("Bearer " ++ token) ->
  Js.free " " token = true ->
  bearer req = Some token.
Proof.
  intros Ha Hf. unfold bearer. rewrite Ha.
  change ("Bearer " ++ token) with ("Bearer" ++ String " " token).
  rewrite split_app by reflexivity. rewrite (split_free _ _ Hf). reflexivity.
Qed.

(** A request that bears a token the server signed for an email passes the
    guard with the payload of that token. *)
Lemma guard_issued (env : Env) (req : Request) (email : option string) (issued : Z) :
  authorization req = Some ("Bearer " ++ jwt.sign (signed email) JWT_SECRET issued) ->
  authenticateJWT env req = inr (set_user req (issued_at email issued)).
Proof.
  intros Ha. unfold authenticateJWT.
  rewrite (bearer_standard req _ Ha (sign_free_space _ _)). cbn [Js.falsy str].
  destruct (String.eqb_spec (jwt.sign (signed email) JWT_SECRET issued) "") as [He|_];
    [exfalso; exact (sign_not_empty _ _ He)|].
  rewrite verify_issued. reflexivity.
Qed.

(** C2. The guard answers 401 when the Authorization header carries no
    credential (no header, no second field, or an empty one), answers 403
    when the credential does not verify, and otherwise sets [req.user] to
    the verified claim and hands the request to the handler; a route
    behind the guard runs its handler in the last case only, and leaves
    the database as it was in the other two.  The credential of a header
    [Bearer <token>] is the token. *)
Theorem guard_outcomes (env : Env) (req : Request) :
  (Js.falsy (bearer req) = true ->
     authenticateJWT env req = inl (send 401 "Access denied")
     /\ forall handler db,
          guarded handler env db req = (send 401 "Access denied", db))
  /\ (forall token e,
        bearer req = Some token -> token <> "" ->
        jwt.verify token JWT_SECRET (now env) = inl e ->
        authenticateJWT env req = inl (send 403 "Invalid token")
        /\ forall handler db,
             guarded handler env db req = (send 403 "Invalid token", db))
  /\ (forall token claim,
        bearer req = Some token -> token <> "" ->
        jwt.verify token JWT_SECRET (now env) = inr claim ->
        authenticateJWT env req = inr (set_user req claim)
        /\ req_user (set_user req claim) = Some claim
        /\ forall handler db,
             guarded handler env db req = handler env db (set_user req claim))
  /\ (forall token,
        authorization req = Some ("Bearer " ++ token) ->
        Js.free " " token = true ->
        bearer req = Some token).
Proof.
  split; [|split; [|split]].
  - intros Hf. unfold guarded, authenticateJWT. rewrite Hf. split; reflexivity.
  - intros token e Hb Hne Hv. unfold guarded, authenticateJWT. rewrite Hb.
    cbn [Js.falsy str]. destruct (String.eqb_spec token "") as [|_]; [contradiction|].
    rewrite Hv. split; reflexivity.
  - intros token claim Hb Hne Hv. unfold guarded, authenticateJWT. rewrite Hb.
    cbn [Js.falsy str]. destruct (String.eqb_spec token "") as [|_]; [contradiction|].
    rewrite Hv. repeat split; reflexivity.
  - intros token. apply bearer_standard.
Qed.

End Tokens.

(** ** The order ledger *)

Section Ledger.
Context `{Mongoose}.

Lemma find_app_last {A : Type} (f : A -> bool) (l : list A) (x : A) :
  List.find f (l ++ [x])%list =
  match List.find f l with
  | Some y => Some y
  | None => if f x then Some x else None
  end.
Proof.
  induction l as [|a l IH]; cbn [List.find List.app]; [reflexivity|].
  destruct (f a); [reflexivity|exact IH].
Qed.

Lemma find_fresh (db : DB) :
  wf db -> List.find (Order.by_id (next_id db)) (orders db) = None.
Proof.
  unfold wf. generalize (next_id db). intros n Hwf.
  induction Hwf as [|o l Ho _ IH]; [reflexivity|].
  cbn [List.find]. unfold Order.by_id at 1.
  destruct (Nat.eqb_spec (o_id o) n); [lia|exact IH].
Qed.

Lemma set_status_id (s : string) (t : Z) (o : order) :
  o_id (Order.set_status s t o) = o_id o.
Proof. reflexivity. Qed.

Lemma find_update_other (id id' : ObjectId) (f : order -> order) (l : list order) :
  (forall o, o_id (f o) = o_id o) -> id' <> id ->
  List.find (Order.by_id id') (Order.update_first id f l) = List.find (Order.by_id id') l.
Proof.
  intros Hf Hne. induction l as [|o l IH]; [reflexivity|].
  cbn [Order.update_first]. destruct (Nat.eqb_spec (o_id o) id) as [He|He].
  - cbn [List.find]. unfold Order.by_id. rewrite Hf.
    destruct (Nat.eqb_spec (o_id o) id'); [lia|reflexivity].
  - cbn [List.find]. rewrite IH. reflexivity.
Qed.

Lemma find_update_same (id : ObjectId) (f : order -> order) (l : list order) (o : order) :
  (forall o, o_id (f o) = o_id o) ->
  List.find (Order.by_id id) l = Some o ->
  List.find (Order.by_id id) (Order.update_first id f l) = Some (f o).
Proof.
  intros Hf. induction l as [|x l IH]; [discriminate|].
  cbn [List.find Order.update_first]. unfold Order.by_id at 1.
  destruct (Nat.eqb_spec (o_id x) id) as [He|He].
  - intros [= ->]. cbn [List.find]. unfold Order.by_id. rewrite Hf.
    destruct (Nat.eqb_spec (o_id o) id); [reflexivity|contradiction].
  - intros Hl. cbn [List.find]. unfold Order.by_id at 1.
    destruct (Nat.eqb_spec (o_id x) id); [contradiction|exact (IH Hl)].
Qed.

Lemma find_remove_other (id id' : ObjectId) (l : list order) :
  id' <> id ->
  List.find (Order.by_id id') (Order.remove_first id l) = List.find (Order.by_id id') l.
Proof.
  intros Hne. induction l as [|o l IH]; [reflexivity|].
  cbn [Order.remove_first]. destruct (Nat.eqb_spec (o_id o) id) as [He|He].
  - cbn [List.find]. unfold Order.by_id at 2.
    destruct (Nat.eqb_spec (o_id o) id'); [lia|reflexivity].
  - cbn [List.find]. rewrite IH. reflexivity.
Qed.

Lemma in_update_first (id : ObjectId) (f : order -> order) (l : list order) (o : order) :
  In o (Order.update_first id f l) ->
  In o l \/ exists x, In x l /\ o_id x = id /\ o = f x.
Proof.
  induction l as [|x l IH]; [intros []|].
  cbn [Order.update_first]. destruct (Nat.eqb_spec (o_id x) id) as [He|He].
  - intros [<-|Hin]; [right; exists x; cbn; auto|left; right; exact Hin].
  - intros [<-|Hin]; [left; left; reflexivity|].
    destruct (IH Hin) as [Hl|(y & Hy & Hid & Heq)]; [left; right; exact Hl|].
    right. exists y. cbn. auto.
Qed.

Lemma in_remove_first (id : ObjectId) (l : list order) (o : order) :
  In o (Order.remove_first id l) -> In o l.
Proof.
  induction l as [|x l IH]; [intros []|].
  cbn [Order.remove_first]. destruct (Nat.eqb (o_id x) id).
  - intros Hin. right. exact Hin.
  - intros [<-|Hin]; [left; reflexivity|right; exact (IH Hin)].
Qed.

Lemma existsb_status_enum (s : string) :
  existsb (String.eqb s) status_enum = true <-> In s status_enum.
Proof.
  rewrite existsb_exists. split.
  - intros (x & Hin & He). apply String.eqb_eq in He. subst. exact Hin.
  - intros Hin. exists s. split; [exact Hin|apply String.eqb_refl].
Qed.

(** What each handler does to the database. *)

Lemma post_orders_ok (env : Env) (db : DB) (b : OrderBody) (f : orderFields) :
  store_ok env = true -> castOrder b = Some f ->
  post_orders env db b =
  (json 201 (Message "Order submitted successfully"),
   with_orders db (orders db ++ [placed env db f])%list (S (next_id db))).
Proof.
  intros Hs Hc. unfold post_orders, Order.save_new. rewrite Hs, Hc. reflexivity.
Qed.

Lemma post_orders_down (env : Env) (db : DB) (b : OrderBody) :
  store_ok env = false \/ castOrder b = None ->
  post_orders env db b = (json 500 (Message "Failed to submit order"), db).
Proof.
  intros Hbad. unfold post_orders, Order.save_new.
  destruct (store_ok env); [|reflexivity].
  destruct Hbad as [Hs|Hc]; [discriminate Hs|]. rewrite Hc. reflexivity.
Qed.

Lemma put_orders_invalid (env : Env) (db : DB) (id : string) (st : JsValue) :
  includes status_enum st = false ->
  put_orders env db id st = (json 400 (Message "Invalid status"), db).
Proof.
  intros Hi. unfold put_orders. fold status_enum. rewrite Hi. reflexivity.
Qed.

Lemma put_orders_found
    (env : Env) (db : DB) (id : string) (oid : ObjectId) (s : string) (o : order) :
  store_ok env = true -> In s status_enum ->
  castObjectId id = Some oid ->
  List.find (Order.by_id oid) (orders db) = Some o ->
  put_orders env db id (JsString s) =
  (json 200 (OrderJson (Order.set_status s (now env) o)),
   with_orders db (Order.update_first oid (Order.set_status s (now env)) (orders db))
     (next_id db)).
Proof.
  intros Hs Hin Hc Hf. apply existsb_status_enum in Hin.
  unfold put_orders, Order.findByIdAndUpdate. fold status_enum.
  cbn [includes Order.cast_string]. rewrite Hin, Hs, Hc, Hf. reflexivity.
Qed.

Lemma put_orders_absent
    (env : Env) (db : DB) (id : string) (oid : ObjectId) (s : string) :
  store_ok env = true -> In s status_enum ->
  castObjectId id = Some oid ->
  List.find (Order.by_id oid) (orders db) = None ->
  put_orders env db id (JsString s) = (json 404 (OrderNotFound id), db).
Proof.
  intros Hs Hin Hc Hf. apply existsb_status_enum in Hin.
  unfold put_orders, Order.findByIdAndUpdate. fold status_enum.
  cbn [includes Order.cast_string]. rewrite Hin, Hs, Hc, Hf. reflexivity.
Qed.

Lemma put_orders_bad_id (env : Env) (db : DB) (id : string) (s : string) :
  In s status_enum ->
  castObjectId id = None ->
  put_orders env db id (JsString s) = (json 500 (MessageError "Error updating order"), db).
Proof.
  intros Hin Hc. apply existsb_status_enum in Hin.
  unfold put_orders, Order.findByIdAndUpdate. fold status_enum.
  cbn [includes]. rewrite Hin, Hc. destruct (store_ok env); reflexivity.
Qed.

End Ledger.

Section LedgerRuns.
Context `{jwt.Package} `{Bcrypt} `{Mongoose}.
Variable Number_cast : string -> option Q.

Local Abbreviation serve := (handle Number_cast).
Local Abbreviation serve_all := (run Number_cast).

(** The orders after a call: only the three order-writing routes touch
    them, each in one way. *)
Lemma handle_orders (env : Env) (db : DB) (c : Call) :
  match c with
  | POST_orders b =>
      orders (snd (serve env db c)) = orders db
      \/ exists f, castOrder b = Some f
                   /\ orders (snd (serve env db c)) = (orders db ++ [placed env db f])%list
                   /\ next_id (snd (serve env db c)) = S (next_id db)
  | PUT_orders id _ =>
      orders (snd (serve env db c)) = orders db
      \/ exists oid s, castObjectId id = Some oid
                       /\ orders (snd (serve env db c)) =
                          Order.update_first oid (Order.set_status s (now env)) (orders db)
  | DELETE_orders id =>
      orders (snd (serve env db c)) = orders db
      \/ exists oid, castObjectId id = Some oid
                     /\ orders (snd (serve env db c)) = Order.remove_first oid (orders db)
  | _ => orders (snd (serve env db c)) = orders db
  end.
Proof.
  destruct c; cbn [handle];
    unfold_handlers; split_tests; cbn [snd fst orders];
    repeat match goal with
           | E : Some _ = Some _ |- _ => injection E as E; subst
           | E : (_, _) = (_, _) |- _ => injection E as ? ?; subst
           | E : Some _ = None |- _ => discriminate E
           | E : None = Some _ |- _ => discriminate E
           end;
    cbn [snd fst orders next_id]; eauto.
  all: right; eexists; split; [reflexivity|]; split; [|reflexivity]; unfold placed;
    match goal with E : of_userDetails _ = _ |- _ => rewrite E end; reflexivity.
Qed.

Lemma handle_next_id (env : Env) (db : DB) (c : Call) :
  next_id db <= next_id (snd (serve env db c)).
Proof.
  destruct c; cbn [handle]; unfold_handlers; split_tests; cbn [snd fst next_id];
    repeat match goal with
           | E : Some _ = Some _ |- _ => injection E as E; subst
           | E : (_, _) = (_, _) |- _ => injection E as ? ?; subst
           | E : Some _ = None |- _ => discriminate E
           | E : None = Some _ |- _ => discriminate E
           end;
    cbn [snd fst next_id]; lia.
Qed.

(** The invariant on ids holds initially and after every call. *)
Lemma wf_empty : wf empty_db.
Proof. constructor. Qed.

Lemma wf_handle (env : Env) (db : DB) (c : Call) :
  wf db -> wf (snd (serve env db c)).
Proof.
  unfold wf. intros Hwf.
  pose proof (handle_orders env db c) as Ho.
  pose proof (handle_next_id env db c) as Hn.
  assert (Hmono : Forall (fun o => o_id o < next_id (snd (serve env db c))) (orders db)).
  { eapply Forall_impl; [|exact Hwf]. cbn beta. intros o Hlt. lia. }
  destruct c; try (rewrite Ho; exact Hmono).
  - destruct Ho as [Ho|(f & _ & Ho & Hnext)]; [rewrite Ho; exact Hmono|].
    rewrite Ho. apply Forall_app. split; [exact Hmono|].
    constructor; [|constructor]. rewrite Hnext. cbn. lia.
  - destruct Ho as [Ho|(oid & s & _ & Ho)]; [rewrite Ho; exact Hmono|].
    rewrite Ho. apply Forall_forall. intros o Hin.
    rewrite Forall_forall in Hmono.
    destruct (in_update_first _ _ _ _ Hin) as [Hl|(x & Hx & _ & ->)].
    + exact (Hmono o Hl).
    + rewrite set_status_id. exact (Hmono x Hx).
  - destruct Ho as [Ho|(oid & _ & Ho)]; [rewrite Ho; exact Hmono|].
    rewrite Ho. apply Forall_forall. intros o Hin.
    rewrite Forall_forall in Hmono. apply Hmono.
    exact (in_remove_first _ _ _ Hin).
Qed.

Lemma wf_run (calls : list (Env * Call)) (db : DB) :
  wf db -> wf (serve_all db calls).
Proof.
  revert db. induction calls as [|[env c] calls IH]; intros db Hwf; [exact Hwf|].
  cbn [run]. apply IH. apply wf_handle. exact Hwf.
Qed.

(** A call that is not a status update of [id] leaves every stored order
    with that id as it was, or stores a new one with status Pending. *)
Lemma handle_keeps (env : Env) (db : DB) (c : Call) (id : ObjectId) (o : order) :
  is_put id c = false ->
  In o (orders (snd (serve env db c))) -> o_id o = id ->
  In o (orders db) \/ (is_post_orders c = true /\ status o = "Pending").
Proof.
  intros Hp Hin Hid. pose proof (handle_orders env db c) as Ho.
  destruct c; try (rewrite Ho in Hin; left; exact Hin).
  - destruct Ho as [Ho|(f & _ & Ho & _)]; rewrite Ho in Hin; [left; exact Hin|].
    apply in_app_or in Hin. destruct Hin as [Hin|[<-|[]]]; [left; exact Hin|].
    right. split; reflexivity.
  - destruct Ho as [Ho|(oid & s & Hc & Ho)]; rewrite Ho in Hin; [left; exact Hin|].
    destruct (in_update_first _ _ _ _ Hin) as [Hl|(x & Hx & Hxid & ->)];
      [left; exact Hl|].
    cbn [is_put] in Hp. rewrite Hc in Hp. rewrite set_status_id in Hid.
    apply Nat.eqb_neq in Hp. congruence.
  - destruct Ho as [Ho|(oid & _ & Ho)]; rewrite Ho in Hin; [left; exact Hin|].
    left. exact (in_remove_first _ _ _ Hin).
Qed.

Lemma handle_all_pending (env : Env) (db : DB) (c : Call) (id : ObjectId) :
  is_put id c = false -> all_pending db id -> all_pending (snd (serve env db c)) id.
Proof.
  unfold all_pending. intros Hp Hall. apply Forall_forall. intros o Hin Hid.
  rewrite Forall_forall in Hall.
  destruct (handle_keeps env db c id o Hp Hin Hid) as [Hl|[_ Hs]];
    [exact (Hall o Hl Hid)|exact Hs].
Qed.

(** A call that neither updates nor deletes [id] keeps its stored status. *)
Lemma handle_status_of (env : Env) (db : DB) (c : Call) (id : ObjectId) (s : string) :
  is_put id c = false -> is_delete id c = false ->
  status_of db id = Some s -> status_of (snd (serve env db c)) id = Some s.
Proof.
  unfold status_of. intros Hp Hd Hs. pose proof (handle_orders env db c) as Ho.
  destruct c; try (rewrite Ho; exact Hs).
  - destruct Ho as [Ho|(f & _ & Ho & _)]; rewrite Ho; [exact Hs|].
    rewrite find_app_last.
    destruct (List.find (Order.by_id id) (orders db)); [exact Hs|discriminate Hs].
  - destruct Ho as [Ho|(oid & s' & Hc & Ho)]; rewrite Ho; [exact Hs|].
    cbn [is_put] in Hp. rewrite Hc in Hp. apply Nat.eqb_neq in Hp.
    rewrite find_update_other; [exact Hs|intros; reflexivity|congruence].
  - destruct Ho as [Ho|(oid & Hc & Ho)]; rewrite Ho; [exact Hs|].
    cbn [is_delete] in Hd. rewrite Hc in Hd. apply Nat.eqb_neq in Hd.
    rewrite find_remove_other; [exact Hs|congruence].
Qed.

Lemma run_all_pending (calls : list (Env * Call)) (db : DB) (id : ObjectId) :
  forallb (fun ec => negb (is_put id (snd ec))) calls = true ->
  all_pending db id -> all_pending (serve_all db calls) id.
Proof.
  revert db. induction calls as [|[env c] calls IH]; intros db Hp Hall; [exact Hall|].
  cbn [forallb snd] in Hp. apply andb_prop in Hp. destruct Hp as [Hc Hp].
  apply negb_true_iff in Hc. cbn [run]. apply IH; [exact Hp|].
  apply handle_all_pending; assumption.
Qed.

Lemma run_status_of (calls : list (Env * Call)) (db : DB) (id : ObjectId) (s : string) :
  forallb (fun ec => negb (is_put id (snd ec))) calls = true ->
  forallb (fun ec => negb (is_delete id (snd ec))) calls = true ->
  status_of db id = Some s -> status_of (serve_all db calls) id = Some s.
Proof.
  revert db. induction calls as [|[env c] calls IH]; intros db Hp Hd Hs; [exact Hs|].
  cbn [forallb snd] in Hp, Hd.
  apply andb_prop in Hp. destruct Hp as [Hc Hp]. apply negb_true_iff in Hc.
  apply andb_prop in Hd. destruct Hd as [Hc' Hd]. apply negb_true_iff in Hc'.
  cbn [run]. apply IH; [exact Hp|exact Hd|].
  apply handle_status_of; assumption.
Qed.

End LedgerRuns.


(** ** Order placement and status updates *)

Section Placement.
Context `{jwt.Package} `{Bcrypt} `{Mongoose}.
Variable Number_cast : string -> option Q.

Local Abbreviation serve := (handle Number_cast).
Local Abbreviation serve_all := (run Number_cast).

Lemma post_orders_code (env : Env) (db : DB) (b : OrderBody) :
  code (fst (post_orders env db b)) = 201 ->
  store_ok env = true /\ exists f, castOrder b = Some f.
Proof.
  intros Hc. destruct (store_ok env) eqn:Hs.
  - split; [reflexivity|]. destruct (castOrder b) as [f|] eqn:Hf; [exists f; reflexivity|].
    rewrite (post_orders_down env db b (or_intror Hf)) in Hc. cbn in Hc. discriminate Hc.
  - rewrite (post_orders_down env db b (or_introl Hs)) in Hc. cbn in Hc. discriminate Hc.
Qed.

(** C3. When POST /orders succeeds on a database whose ids are below the
    next id, the order it stores has status Pending; through any later
    calls none of which is a status update of that order, every stored
    order with its id has status Pending, and the order is still stored
    with status Pending when none of the calls deletes it either.  For any
    call that is not a status update of an id, an order stored under that
    id after the call was stored unchanged before it, or is the one the
    call placed, with status Pending. *)
Theorem placed_order_stays_pending (env : Env) (db : DB) (b : OrderBody) :
  wf db ->
  code (fst (post_orders env db b)) = 201 ->
  (exists f,
      castOrder b = Some f
      /\ In (placed env db f) (orders (snd (post_orders env db b)))
      /\ status (placed env db f) = "Pending")
  /\ status_of (snd (post_orders env db b)) (next_id db) = Some "Pending"
  /\ (forall calls : list (Env * Call),
        forallb (fun ec => negb (is_put (next_id db) (snd ec))) calls = true ->
        all_pending (serve_all (snd (post_orders env db b)) calls) (next_id db)
        /\ (forallb (fun ec => negb (is_delete (next_id db) (snd ec))) calls = true ->
            status_of (serve_all (snd (post_orders env db b)) calls) (next_id db)
            = Some "Pending"))
  /\ (forall (env' : Env) (db0 : DB) (c : Call) (id : ObjectId) (o : order),
        is_put id c = false ->
        In o (orders (snd (serve env' db0 c))) -> o_id o = id ->
        In o (orders db0) \/ (is_post_orders c = true /\ status o = "Pending")).
Proof.
  intros Hwf Hcode. apply post_orders_code in Hcode. destruct Hcode as [Hs [f Hf]].
  rewrite (post_orders_ok env db b f Hs Hf). cbn [snd orders with_orders].
  assert (Hst : status_of (with_orders db (orders db ++ [placed env db f])%list
                             (S (next_id db))) (next_id db) = Some "Pending").
  { unfold status_of. cbn [orders with_orders]. rewrite find_app_last.
    rewrite (find_fresh db Hwf). unfold Order.by_id. cbn [placed o_id].
    rewrite Nat.eqb_refl. reflexivity. }
  assert (Hall : all_pending (with_orders db (orders db ++ [placed env db f])%list
                                (S (next_id db))) (next_id db)).
  { unfold all_pending. cbn [orders with_orders]. apply Forall_app. split.
    - eapply Forall_impl; [|exact Hwf]. cbn beta. intros o Hlt Hid. lia.
    - constructor; [|constructor]. intros _. reflexivity. }
  split.
  { exists f. split; [exact Hf|].
    split; [apply in_or_app; right; left; reflexivity|reflexivity]. }
  split; [exact Hst|]. split.
  - intros calls Hp. split.
    + apply run_all_pending; assumption.
    + intros Hd. apply run_status_of; assumption.
  - intros env' db0 c id o. apply handle_keeps.
Qed.

(** C4, as the code has it.  POST /orders does not look at the purchaser
    snapshot or the line list.  When the database answers and the body
    casts to the schema, the response is 201 and the database gains
    exactly the order built from the body, with status Pending, whatever
    the body holds; every body of fields of the types of the schema casts,
    one with no purchaser snapshot or with an empty line list too, and is
    stored so.  When the cast refuses the body, or the database does not
    answer, the response is 500 "Failed to submit order" and the database
    is as it was; so it is for every body whose total is an array. *)
Theorem place_not_validated (env : Env) (db : DB) :
  (forall b f,
      store_ok env = true -> castOrder b = Some f ->
      post_orders env db b =
      (json 201 (Message "Order submitted successfully"),
       with_orders db (orders db ++ [placed env db f])%list (S (next_id db)))
      /\ status (placed env db f) = "Pending"
      /\ userDetails (placed env db f) =
         match of_userDetails f with
         | Some d => d
         | None => {| ud_name := None; ud_email := None |}
         end
      /\ orderDetails (placed env db f) = of_orderDetails f)
  /\ (forall f,
        store_ok env = true ->
        post_orders env db (json_order f) =
        (json 201 (Message "Order submitted successfully"),
         with_orders db (orders db ++ [placed env db f])%list (S (next_id db))))
  /\ (forall b,
        store_ok env = false \/ castOrder b = None ->
        post_orders env db b = (json 500 (Message "Failed to submit order"), db))
  /\ (forall b items,
        ob_totalAmount b = JsArray items ->
        post_orders env db b = (json 500 (Message "Failed to submit order"), db)).
Proof.
  split; [|split; [|split]].
  - intros b f Hs Hf. split; [exact (post_orders_ok env db b f Hs Hf)|]. repeat split.
  - intros f Hs. exact (post_orders_ok env db _ f Hs (castOrder_json f)).
  - exact (post_orders_down env db).
  - intros b items Ht. apply post_orders_down. right.
    exact (castOrder_total_array b items Ht).
Qed.

Lemma includes_outside (st : JsValue) :
  (forall s, In s status_enum -> st <> JsString s) -> includes status_enum st = false.
Proof.
  intros Hout. destruct st as [| | | |s| |]; try reflexivity.
  cbn [includes]. destruct (existsb (String.eqb s) status_enum) eqn:He; [|reflexivity].
  apply existsb_status_enum in He. exfalso. exact (Hout s He eq_refl).
Qed.

(** C5. A status update whose value is none of the strings Pending,
    Delivered and Rejected is answered 400 with the message "Invalid
    status", and the database is left as it was. *)
Theorem invalid_status_rejected (env : Env) (db : DB) (id : string) (st : JsValue) :
  (forall s, In s status_enum -> st <> JsString s) ->
  put_orders env db id st = (json 400 (Message "Invalid status"), db).
Proof.
  intros Hout. apply put_orders_invalid. apply includes_outside. exact Hout.
Qed.

(** C6, as the code has it.  When the new status is one of the three
    values.  When the database answers and the route parameter casts to an
    ObjectId: for an id under which an order is stored, whatever the
    status of that order, the response is 200 with the order carrying the
    new status and the time of the call as [updatedAt], every other field
    as before; the order is stored so, the orders under other ids, the
    users and the food items are as before; for an id under which no order
    is stored the response is 404 and the database is as it was.  When the
    route parameter does not cast to an ObjectId, as every string of fewer
    than twelve characters, the response is 500 "Error updating order",
    not 404, and the database is as it was. *)
Theorem set_status_any_state (env : Env) (db : DB) (id : string) (s : string) :
  In s status_enum ->
  (forall (oid : ObjectId) (o : order),
      store_ok env = true ->
      castObjectId id = Some oid ->
      List.find (Order.by_id oid) (orders db) = Some o ->
      exists o' : order,
        fst (put_orders env db id (JsString s)) = json 200 (OrderJson o')
        /\ status o' = s
        /\ updatedAt o' = now env
        /\ o_id o' = o_id o
        /\ userDetails o' = userDetails o
        /\ orderDetails o' = orderDetails o
        /\ totalAmount o' = totalAmount o
        /\ paymentMethod o' = paymentMethod o
        /\ createdAt o' = createdAt o
        /\ List.find (Order.by_id oid) (orders (snd (put_orders env db id (JsString s))))
           = Some o'
        /\ (forall oid', oid' <> oid ->
              List.find (Order.by_id oid') (orders (snd (put_orders env db id (JsString s))))
              = List.find (Order.by_id oid') (orders db))
        /\ users (snd (put_orders env db id (JsString s))) = users db
        /\ foodItems (snd (put_orders env db id (JsString s))) = foodItems db)
  /\ (forall oid : ObjectId,
        store_ok env = true ->
        castObjectId id = Some oid ->
        List.find (Order.by_id oid) (orders db) = None ->
        put_orders env db id (JsString s) = (json 404 (OrderNotFound id), db))
  /\ (castObjectId id = None ->
      put_orders env db id (JsString s)
      = (json 500 (MessageError "Error updating order"), db))
  /\ (String.length id < 12 ->
      put_orders env db id (JsString s)
      = (json 500 (MessageError "Error updating order"), db)).
Proof.
  intros Hin. split; [|split; [|split]].
  - intros oid o Hs Hc Hf. exists (Order.set_status s (now env) o).
    rewrite (put_orders_found env db id oid s o Hs Hin Hc Hf).
    cbn [fst snd orders users foodItems with_orders].
    split; [reflexivity|]. repeat (split; [reflexivity|]).
    split; [apply find_update_same; [intros; reflexivity|exact Hf]|].
    split; [|split; reflexivity].
    intros oid' Hne. apply find_update_other; [intros; reflexivity|exact Hne].
  - intros oid Hs Hc Hf. exact (put_orders_absent env db id oid s Hs Hin Hc Hf).
  - exact (put_orders_bad_id env db id s Hin).
  - intros Hl. exact (put_orders_bad_id env db id s Hin (castObjectId_short id Hl)).
Qed.

End Placement.

(** ** Order queries *)

Section Queries.
Context `{jwt.Package} `{Mongoose}.

Lemma option_eqb_eq (a b : option string) : option_eqb a b = true <-> a = b.
Proof.
  destruct a as [x|], b as [y|]; cbn [option_eqb]; split;
    try discriminate; try reflexivity.
  - intros He. apply String.eqb_eq in He. congruence.
  - intros [= ->]. apply String.eqb_refl.
Qed.

Lemma insert_desc_perm (o : order) (l : list order) :
  Permutation (Order.insert_desc o l) (o :: l).
Proof.
  induction l as [|x l IH]; cbn [Order.insert_desc]; [reflexivity|].
  destruct (createdAt x <=? createdAt o)%Z; [reflexivity|].
  rewrite IH. apply perm_swap.
Qed.

Lemma sort_perm (l : list order) : Permutation (Order.sort_createdAt_desc l) l.
Proof.
  induction l as [|o l IH]; cbn [Order.sort_createdAt_desc]; [reflexivity|].
  rewrite insert_desc_perm, IH. reflexivity.
Qed.

Lemma insert_desc_hd (o x : order) (l : list order) :
  not_older x o -> HdRel not_older x l -> HdRel not_older x (Order.insert_desc o l).
Proof.
  intros Hxo Hl. destruct l as [|y l]; cbn [Order.insert_desc].
  - constructor. exact Hxo.
  - destruct (createdAt y <=? createdAt o)%Z; constructor;
      [exact Hxo|inversion Hl; assumption].
Qed.

Lemma insert_desc_sorted (o : order) (l : list order) :
  Sorted not_older l -> Sorted not_older (Order.insert_desc o l).
Proof.
  induction 1 as [|x l Hs IH Hhd]; cbn [Order.insert_desc].
  - repeat constructor.
  - destruct (createdAt x <=? createdAt o)%Z eqn:Hc.
    + constructor; [constructor; assumption|].
      constructor. unfold not_older. lia.
    + constructor; [exact IH|].
      apply insert_desc_hd; [unfold not_older; lia|exact Hhd].
Qed.

Lemma sort_sorted (l : list order) : Sorted not_older (Order.sort_createdAt_desc l).
Proof.
  induction l as [|o l IH]; cbn [Order.sort_createdAt_desc]; [constructor|].
  apply insert_desc_sorted. exact IH.
Qed.

Lemma sort_strongly_sorted (l : list order) :
  StronglySorted not_older (Order.sort_createdAt_desc l).
Proof.
  apply Sorted_StronglySorted; [|apply sort_sorted].
  intros a b c Hab Hbc. unfold not_older in *. lia.
Qed.

Lemma sort_nil (l : list order) : Order.sort_createdAt_desc l = [] <-> l = [].
Proof.
  split; [|intros ->; reflexivity].
  intros Hs. pose proof (sort_perm l) as Hp. rewrite Hs in Hp.
  apply Permutation_nil in Hp. exact Hp.
Qed.


End Queries.


(** ** Accounts *)

Section Accounts.
Context `{jwt.Package} `{Bcrypt} `{Mongoose}.

Lemma find_exists {A : Type} (f : A -> bool) (l : list A) (x : A) :
  In x l -> f x = true -> exists y, List.find f l = Some y.
Proof.
  induction l as [|a l IH]; [intros []|].
  intros [->|Hin] Hf; cbn [List.find].
  - rewrite Hf. eexists. reflexivity.
  - destruct (f a); [eexists; reflexivity|exact (IH Hin Hf)].
Qed.

Lemma find_none_all {A : Type} (f : A -> bool) (l : list A) :
  (forall x, In x l -> f x = false) -> List.find f l = None.
Proof.
  induction l as [|a l IH]; [reflexivity|].
  intros Hall. cbn [List.find]. rewrite (Hall a (or_introl eq_refl)).
  apply IH. intros x Hin. apply Hall. right. exact Hin.
Qed.



(** The filter of a sign-in with a string: the users whose email or
    mobile number is that string. *)
Lemma by_identifier_string (s : string) :
  exists filter,
    by_identifier (JsString s) = Some filter
    /\ forall u, filter u = option_eqb (u_email u) (Some s)
                             || option_eqb (u_mobile u) (Some s).
Proof.
  destruct (castFilter_string s) as (q & Hq & Hmeans).
  unfold by_identifier. rewrite Hq. unfold_async.
  eexists. split; [reflexivity|]. intros u. cbn beta. rewrite !Hmeans. reflexivity.
Qed.

(** The filter of a sign-in without identifier, or with null: the users
    without email or without mobile number. *)
Lemma by_identifier_missing (v : JsValue) :
  v = JsUndefined \/ v = JsNull ->
  exists filter,
    by_identifier v = Some filter
    /\ forall u, filter u = option_eqb (u_email u) None || option_eqb (u_mobile u) None.
Proof.
  intros Hv.
  assert (Hq : exists q, castFilter v = Some q /\ forall x, q x = option_eqb x None)
    by (destruct Hv as [-> | ->]; [apply castFilter_undefined|apply castFilter_null]).
  destruct Hq as (q & Hq & Hmeans).
  unfold by_identifier. rewrite Hq. unfold_async.
  eexists. split; [reflexivity|]. intros u. cbn beta. rewrite !Hmeans. reflexivity.
Qed.


Lemma find_app_new {A : Type} (f : A -> bool) (l : list A) (x : A) :
  (forall y, In y l -> f y = false) -> f x = true ->
  List.find f (l ++ [x])%list = Some x.
Proof.
  intros Hl Hx. induction l as [|a l IH]; cbn [List.find List.app].
  - rewrite Hx. reflexivity.
  - rewrite (Hl a (or_introl eq_refl)). apply IH.
    intros y Hin. apply Hl. right. exact Hin.
Qed.

Lemma existsb_none {A : Type} (f : A -> bool) (l : list A) :
  (forall y, In y l -> f y = false) -> existsb f l = false.
Proof.
  induction l as [|a l IH]; [reflexivity|].
  intros Hl. cbn [existsb]. rewrite (Hl a (or_introl eq_refl)).
  apply IH. intros y Hin. apply Hl. right. exact Hin.
Qed.

(** X18. Sign-up, then sign-in with the same email and password: when the
    database answers, the name is given, the hash is not empty, no stored
    user has the email or the mobile number of the registration, and none
    has the email as its mobile number, the registration is answered 201
    and the sign-in 200, with a token for the email. *)
Lemma signup_then_signin
    (env env' : Env) (db : DB) (b : SignupBody) (file : option string) (e : string) :
  store_ok env = true -> store_ok env' = true ->
  sb_email b = Some e ->
  required (sb_name b) = true ->
  bcrypt_hash (sb_password b) (salt env) <> "" ->
  (forall u, In u (users db) ->
             u_email u <> sb_email b /\ u_mobile u <> sb_mobile b
             /\ u_mobile u <> Some e) ->
  fst (signup env db b file)
  = json 201 (AuthJson (jwt.sign (signed (Some e)) JWT_SECRET (now env))
                       (sb_name b) (Some e))
  /\ signin env' (snd (signup env db b file))
       {| identifier := JsString e; password := JsString (sb_password b) |}
     = (json 200 (AuthJson (jwt.sign (signed (Some e)) JWT_SECRET (now env'))
                           (sb_name b) (Some e)),
        snd (signup env db b file)).
Proof.
  intros Hs Hs' He Hname Hhash Hfree.
  assert (Hno : forall u, In u (users db) ->
                          email_or_mobile (sb_email b) (sb_mobile b) u = false).
  { intros u Hin. destruct (Hfree u Hin) as (Hne1 & Hne2 & _). unfold email_or_mobile.
    apply orb_false_iff. split.
    - destruct (option_eqb (u_email u) (sb_email b)) eqn:E; [|reflexivity].
      apply option_eqb_eq in E. contradiction.
    - destruct (option_eqb (u_mobile u) (sb_mobile b)) eqn:E; [|reflexivity].
      apply option_eqb_eq in E. contradiction. }
  assert (Hdup : User.duplicate_key db
                   (User.new db (sb_name b) (sb_mobile b) (sb_email b)
                      (Some (bcrypt_hash (sb_password b) (salt env))) file) = false).
  { unfold User.duplicate_key. apply existsb_none. intros u Hin.
    specialize (Hno u Hin). unfold email_or_mobile in Hno. cbn [User.new u_mobile u_email].
    rewrite orb_comm. exact Hno. }
  assert (Hreq : required (Some (bcrypt_hash (sb_password b) (salt env))) = true).
  { unfold required. cbn [Js.falsy].
    destruct (String.eqb_spec (bcrypt_hash (sb_password b) (salt env)) "");
      [contradiction|reflexivity]. }
  assert (Hup : signup env db b file
                = (json 201 (AuthJson (jwt.sign (signed (Some e)) JWT_SECRET (now env))
                                      (sb_name b) (Some e)),
                   {| foodItems := foodItems db;
                      orders := orders db;
                      users := (users db ++
                                [User.new db (sb_name b) (sb_mobile b) (sb_email b)
                                   (Some (bcrypt_hash (sb_password b) (salt env))) file])%list;
                      next_id := S (next_id db) |})).
  { unfold signup, User.findOne, User.save. rewrite Hs. unfold_async.
    rewrite (find_none_all _ _ Hno). cbn [User.new u_name u_password u_email].
    rewrite Hname, Hreq. cbn [andb].
    rewrite Hdup. rewrite He. reflexivity. }
  rewrite Hup. cbn [fst snd]. split; [reflexivity|].
  destruct (by_identifier_string e) as (filter & Hf & Hmeans).
  unfold signin. cbn [identifier password]. rewrite Hf.
  unfold User.findOne. rewrite Hs'. unfold_async. cbn [users].
  rewrite find_app_new.
  - cbn [User.new u_password u_email u_name]. unfold compare_stored, resolve.
    rewrite bcrypt_compare_hash. cbn [negb]. rewrite He. reflexivity.
  - intros u Hin. destruct (Hfree u Hin) as (Hne1 & _ & Hne3). rewrite Hmeans.
    apply orb_false_iff. split.
    + destruct (option_eqb (u_email u) (Some e)) eqn:E; [|reflexivity].
      apply option_eqb_eq in E. rewrite He in Hne1. contradiction.
    + destruct (option_eqb (u_mobile u) (Some e)) eqn:E; [|reflexivity].
      apply option_eqb_eq in E. contradiction.
  - rewrite Hmeans. cbn [User.new u_email]. rewrite He.
    cbn [option_eqb]. rewrite String.eqb_refl. reflexivity.
Qed.

(** C10. The admin routes compute what the user routes compute: for every
    environment, database and request, /adminsignup gives the response and
    the database of /signup, and /adminsignin those of /signin; so a
    sign-in through either route after a registration through either
    route has one and the same outcome. *)
Theorem admin_routes_same (env : Env) (db : DB) :
  (forall b file, adminsignup env db b file = signup env db b file)
  /\ (forall b, adminsignin env db b = signin env db b)
  /\ (forall env' b file c,
        signin env' (snd (adminsignup env db b file)) c
        = adminsignin env' (snd (signup env db b file)) c).
Proof.
  split; [|split]; reflexivity.
Qed.

End Accounts.


(** ** What every route keeps *)

Section Routes.
Context `{jwt.Package} `{Bcrypt} `{Mongoose}.
Variable Number_cast : string -> option Q.

Local Abbreviation serve := (handle Number_cast).
Local Abbreviation serve_all := (run Number_cast).

(** X1. A call answered with a status of 400 or more leaves the database as it
    was: every error branch and every catch branch of every route hands
    back the database it was given. *)
Theorem failed_call_changes_nothing (env : Env) (db : DB) (c : Call) :
  400 <= code (fst (serve env db c)) -> snd (serve env db c) = db.
Proof.
  destruct c; cbn [handle]; unfold_handlers; split_tests;
    cbn [fst snd code json send]; intros Hc; try reflexivity; exfalso; lia.
Qed.

(** X2. The listings, the sign-in routes, the profile, the protected route and
    the upload never change the database, whatever they answer. *)
Theorem reading_changes_nothing (env : Env) (db : DB) (c : Call) :
  reads_only c = true -> snd (serve env db c) = db.
Proof.
  destruct c; cbn [reads_only]; intros Hr; try discriminate Hr;
    cbn [handle]; unfold_handlers; split_tests; reflexivity.
Qed.

(** An invariant of the database that every call keeps holds after every
    run that starts where it holds. *)
Lemma run_invariant (P : DB -> Prop) :
  (forall env db c, P db -> P (snd (serve env db c))) ->
  forall calls db, P db -> P (serve_all db calls).
Proof.
  intros Hstep calls. induction calls as [|[env c] calls IH]; intros db HP; [exact HP|].
  cbn [run]. apply IH. apply Hstep. exact HP.
Qed.

(** The users after a call: as before, or one more, who passed the
    validators and the unique indexes. *)
Lemma handle_users (env : Env) (db : DB) (c : Call) :
  users (snd (serve env db c)) = users db
  \/ exists u, users (snd (serve env db c)) = (users db ++ [u])%list
               /\ User.duplicate_key db u = false
               /\ required (u_name u) = true
               /\ required (u_password u) = true.
Proof.
  destruct c; cbn [handle]; unfold_handlers; split_tests; cbn [snd users];
    try (left; reflexivity).
  all: right; eexists; split; [reflexivity|];
    repeat match goal with
           | E : (_ && _)%bool = true |- _ => apply andb_prop in E; destruct E
           end; auto.
Qed.

(** The food items after a call: as before, one more under a new id, or
    the first one under an id removed. *)
Lemma handle_foodItems (env : Env) (db : DB) (c : Call) :
  foodItems (snd (serve env db c)) = foodItems db
  \/ (exists f, foodItems (snd (serve env db c)) = (foodItems db ++ [f])%list
                /\ ~ In (fi_id f) (food_ids db))
  \/ (exists id, foodItems (snd (serve env db c))
                 = FoodItem.remove_first id (foodItems db)).
Proof.
  destruct c; cbn [handle]; unfold_handlers; split_tests; cbn [snd fst foodItems];
    try (left; reflexivity);
    repeat match goal with
           | E : Some _ = Some _ |- _ => injection E as E; subst
           | E : (_, _) = (_, _) |- _ => injection E as ? ?; subst
           end;
    cbn [snd fst foodItems]; try (left; reflexivity).
  - right. left. eexists. split; [reflexivity|]. cbn [fi_id].
    unfold food_ids. intros Hin. apply in_map_iff in Hin.
    destruct Hin as (g & Hg & Hin).
    match goal with
    | E : existsb _ _ = false |- _ =>
        rewrite <- not_true_iff_false in E; apply E; apply existsb_exists
    end.
    exists g. split; [exact Hin|]. cbn [fi_id]. apply String.eqb_eq. exact Hg.
  - right. right. eexists. reflexivity.
Qed.

(** The orders after a status update: as before, or the first order of
    the id set to one of the three values. *)
Lemma put_orders_orders (env : Env) (db : DB) (id : string) (st : JsValue) :
  orders (snd (put_orders env db id st)) = orders db
  \/ exists oid s, In s status_enum
                   /\ orders (snd (put_orders env db id st))
                      = Order.update_first oid (Order.set_status s (now env)) (orders db).
Proof.
  unfold put_orders, Order.findByIdAndUpdate. unfold_async.
  destruct st as [| | | |s| |]; cbn [includes negb Order.cast_string];
    try (left; reflexivity).
  fold status_enum. destruct (existsb (String.eqb s) status_enum) eqn:He;
    cbn [negb]; [|left; reflexivity].
  destruct (store_ok env); [|left; reflexivity].
  destruct (castObjectId id) as [oid|]; [|left; reflexivity].
  destruct (List.find (Order.by_id oid) (orders db)); cbn [fst snd orders];
    [|left; reflexivity].
  right. exists oid, s. split; [apply existsb_status_enum; exact He|reflexivity].
Qed.

Lemma update_first_ids (id : ObjectId) (f : order -> order) (l : list order) :
  (forall o, o_id (f o) = o_id o) ->
  List.map o_id (Order.update_first id f l) = List.map o_id l.
Proof.
  intros Hf. induction l as [|o l IH]; [reflexivity|].
  cbn [Order.update_first]. destruct (Nat.eqb (o_id o) id); cbn [List.map].
  - rewrite Hf. reflexivity.
  - rewrite IH. reflexivity.
Qed.

Lemma remove_first_nodup (id : ObjectId) (l : list order) :
  NoDup (List.map o_id l) -> NoDup (List.map o_id (Order.remove_first id l)).
Proof.
  induction l as [|o l IH]; [intros Hn; exact Hn|].
  cbn [Order.remove_first List.map]. intros Hn. inversion Hn as [|x xs Hx Hxs]; subst.
  destruct (Nat.eqb (o_id o) id); [exact Hxs|].
  cbn [List.map]. constructor; [|exact (IH Hxs)].
  intros Hin. apply Hx. apply in_map_iff in Hin. destruct Hin as (y & Hy & Hin).
  apply in_map_iff. exists y. split; [exact Hy|exact (in_remove_first _ _ _ Hin)].
Qed.

(** X4. In every database the server reaches from the empty one, the status of
    every stored order is Pending, Delivered or Rejected. *)
Theorem status_always_in_enum (calls : list (Env * Call)) :
  Forall (fun o => In (status o) status_enum) (orders (serve_all empty_db calls)).
Proof.
  apply (run_invariant (fun db => Forall (fun o => In (status o) status_enum) (orders db)));
    [|constructor].
  intros env db c Hall. pose proof (handle_orders Number_cast env db c) as Ho.
  destruct c; try (rewrite Ho; exact Hall).
  - destruct Ho as [Ho|(f & _ & Ho & _)]; rewrite Ho; [exact Hall|].
    apply Forall_app. split; [exact Hall|]. constructor; [|constructor].
    cbn. auto.
  - cbn [handle]. destruct (put_orders_orders env db id st) as [Hp|(oid & s & Hs & Hp)];
      rewrite Hp; [exact Hall|].
    apply Forall_forall. intros o Hin. rewrite Forall_forall in Hall.
    destruct (in_update_first _ _ _ _ Hin) as [Hl|(x & Hx & _ & ->)];
      [exact (Hall o Hl)|exact Hs].
  - destruct Ho as [Ho|(oid & _ & Ho)]; rewrite Ho; [exact Hall|].
    apply Forall_forall. intros o Hin. rewrite Forall_forall in Hall.
    exact (Hall o (in_remove_first _ _ _ Hin)).
Qed.

Lemma ids_kept (env : Env) (db : DB) (c : Call) :
  wf db /\ NoDup (order_ids db) ->
  wf (snd (serve env db c)) /\ NoDup (order_ids (snd (serve env db c))).
Proof.
  intros [Hwf Hn]. split; [apply wf_handle; exact Hwf|].
  unfold order_ids in *. pose proof (handle_orders Number_cast env db c) as Ho.
  destruct c; try (rewrite Ho; exact Hn).
  - destruct Ho as [Ho|(f & _ & Ho & _)]; rewrite Ho; [exact Hn|].
    rewrite map_app. cbn [List.map placed o_id].
    apply NoDup_app_remove_l with (l := []). cbn [List.app].
    apply Permutation_NoDup with (l := (next_id db :: List.map o_id (orders db))).
    + apply Permutation_cons_append.
    + constructor; [|exact Hn]. intros Hin. apply in_map_iff in Hin.
      destruct Hin as (o & Ho' & Hin). unfold wf in Hwf.
      rewrite Forall_forall in Hwf. specialize (Hwf o Hin). lia.
  - destruct Ho as [Ho|(oid & s & _ & Ho)]; rewrite Ho; [exact Hn|].
    rewrite update_first_ids; [exact Hn|intros; reflexivity].
  - destruct Ho as [Ho|(oid & _ & Ho)]; rewrite Ho; [exact Hn|].
    apply remove_first_nodup. exact Hn.
Qed.

(** In every database the server reaches from the empty one, no two
    stored orders have the same id, and every id is below the next one. *)
Lemma order_ids_never_repeat (calls : list (Env * Call)) :
  NoDup (order_ids (serve_all empty_db calls))
  /\ Forall (fun id => id < next_id (serve_all empty_db calls))
            (order_ids (serve_all empty_db calls)).
Proof.
  destruct (run_invariant (fun db => wf db /\ NoDup (order_ids db)) ids_kept calls empty_db)
    as [Hwf Hn]; [split; constructor|].
  split; [exact Hn|]. unfold order_ids. apply Forall_map. exact Hwf.
Qed.

Lemma in_present (l : list (option string)) (x : string) :
  In x (present l) <-> In (Some x) l.
Proof.
  induction l as [|[y|] l IH]; cbn [present In]; [tauto| |].
  - rewrite IH. split; intros [Hx|Hx]; auto; left; congruence.
  - rewrite IH. split; [auto|intros [Hx|Hx]; [discriminate|exact Hx]].
Qed.

Lemma present_nodup (l : list (option string)) : NoDup l -> NoDup (present l).
Proof.
  induction 1 as [|[y|] l Hy Hl IH]; cbn [present]; [constructor| |exact IH].
  constructor; [|exact IH]. rewrite in_present. exact Hy.
Qed.

Lemma users_kept (env : Env) (db : DB) (c : Call) :
  NoDup (List.map u_email (users db)) /\ NoDup (List.map u_mobile (users db)) ->
  NoDup (List.map u_email (users (snd (serve env db c))))
  /\ NoDup (List.map u_mobile (users (snd (serve env db c)))).
Proof.
  intros [He Hm]. destruct (handle_users env db c) as [Hu|(u & Hu & Hd & _)];
    rewrite Hu; [split; assumption|].
  unfold User.duplicate_key in Hd.
  assert (Hno : forall v, In v (users db) ->
                          u_mobile v <> u_mobile u /\ u_email v <> u_email u).
  { intros v Hin. rewrite <- not_true_iff_false in Hd.
    split; intros Heq; apply Hd; apply existsb_exists; exists v;
      (split; [exact Hin|]); apply orb_true_iff; [left|right];
      apply option_eqb_eq; exact Heq. }
  rewrite !map_app. cbn [List.map]. split.
  - apply Permutation_NoDup with (l := u_email u :: List.map u_email (users db));
      [apply Permutation_cons_append|].
    constructor; [|exact He]. intros Hin. apply in_map_iff in Hin.
    destruct Hin as (v & Hv & Hin). exact (proj2 (Hno v Hin) Hv).
  - apply Permutation_NoDup with (l := u_mobile u :: List.map u_mobile (users db));
      [apply Permutation_cons_append|].
    constructor; [|exact Hm]. intros Hin. apply in_map_iff in Hin.
    destruct Hin as (v & Hv & Hin). exact (proj1 (Hno v Hin) Hv).
Qed.

(** X5. In every database the server reaches from the empty one, no email
    address and no mobile number belongs to two stored users. *)
Theorem users_never_share (calls : list (Env * Call)) :
  NoDup (present (List.map u_email (users (serve_all empty_db calls))))
  /\ NoDup (present (List.map u_mobile (users (serve_all empty_db calls)))).
Proof.
  destruct (run_invariant
              (fun db => NoDup (List.map u_email (users db))
                         /\ NoDup (List.map u_mobile (users db)))
              users_kept calls empty_db) as [He Hm]; [split; constructor|].
  split; apply present_nodup; assumption.
Qed.

(** X6. In every database the server reaches from the empty one, every stored
    user has a name and a password hash, neither of them empty. *)
Theorem users_always_valid (calls : list (Env * Call)) :
  Forall (fun u => (exists name, u_name u = Some name /\ name <> "")
                   /\ (exists h, u_password u = Some h /\ h <> ""))
         (users (serve_all empty_db calls)).
Proof.
  apply (run_invariant
           (fun db => Forall (fun u => (exists name, u_name u = Some name /\ name <> "")
                                       /\ (exists h, u_password u = Some h /\ h <> ""))
                             (users db))); [|constructor].
  intros env db c Hall.
  destruct (handle_users env db c) as [Hu|(u & Hu & _ & Hn & Hp)];
    rewrite Hu; [exact Hall|].
  apply Forall_app. split; [exact Hall|]. constructor; [|constructor].
  unfold required, Js.falsy in Hn, Hp. split.
  - destruct (u_name u) as [n|]; [|discriminate Hn]. exists n. split; [reflexivity|].
    intros ->. discriminate Hn.
  - destruct (u_password u) as [h|]; [|discriminate Hp]. exists h. split; [reflexivity|].
    intros ->. discriminate Hp.
Qed.

Lemma food_remove_first_in (id : string) (l : list foodItem) (f : foodItem) :
  In f (FoodItem.remove_first id l) -> In f l.
Proof.
  induction l as [|x l IH]; [intros []|].
  cbn [FoodItem.remove_first]. destruct (String.eqb (fi_id x) id).
  - intros Hin. right. exact Hin.
  - intros [<-|Hin]; [left; reflexivity|right; exact (IH Hin)].
Qed.

Lemma food_remove_first_nodup (id : string) (l : list foodItem) :
  NoDup (List.map fi_id l) -> NoDup (List.map fi_id (FoodItem.remove_first id l)).
Proof.
  induction l as [|x l IH]; [intros Hn; exact Hn|].
  cbn [FoodItem.remove_first List.map]. intros Hn. inversion Hn as [|y ys Hy Hys]; subst.
  destruct (String.eqb (fi_id x) id); [exact Hys|].
  cbn [List.map]. constructor; [|exact (IH Hys)].
  intros Hin. apply Hy. apply in_map_iff in Hin. destruct Hin as (g & Hg & Hin).
  apply in_map_iff. exists g. split; [exact Hg|exact (food_remove_first_in _ _ _ Hin)].
Qed.

(** In every database the server reaches from the empty one, no two
    stored food items have the same id: a uuid that is already stored is
    refused by the save. *)
Lemma food_ids_never_repeat (calls : list (Env * Call)) :
  NoDup (food_ids (serve_all empty_db calls)).
Proof.
  apply (run_invariant (fun db => NoDup (food_ids db))); [|constructor].
  intros env db c Hn. unfold food_ids in *.
  destruct (handle_foodItems env db c) as [Hf|[(f & Hf & Hnew)|(id & Hf)]]; rewrite Hf.
  - exact Hn.
  - rewrite map_app. cbn [List.map].
    apply Permutation_NoDup with (l := fi_id f :: List.map fi_id (foodItems db));
      [apply Permutation_cons_append|].
    constructor; [exact Hnew|exact Hn].
  - apply food_remove_first_nodup. exact Hn.
Qed.

End Routes.

(** ** The other order and catalog routes *)

Section Catalog.
Context `{Mongoose}.
Variable Number_cast : string -> option Q.

Lemma filter_all {A : Type} (l : list A) : List.filter (fun _ => true) l = l.
Proof.
  induction l as [|a l IH]; [reflexivity|]. cbn [List.filter]. rewrite IH. reflexivity.
Qed.

(** X7. GET /allorders, when the database answers: 404 when no order is
    stored, otherwise 200 with every stored order, each once per stored
    copy, every order at least as recent as all the orders after it. *)
Theorem all_orders_listed (env : Env) (db : DB) :
  store_ok env = true ->
  (orders db = [] -> get_allorders env db = (json 404 (Message "No orders found"), db))
  /\ (orders db <> [] ->
      exists l, get_allorders env db = (json 200 (Orders l), db)
                /\ Permutation l (orders db)
                /\ StronglySorted not_older l).
Proof.
  intros Hs. unfold get_allorders, Order.find. rewrite Hs. unfold_async.
  rewrite filter_all. split.
  - intros ->. reflexivity.
  - intros Hne. exists (Order.sort_createdAt_desc (orders db)).
    split; [|split; [apply sort_perm|apply sort_strongly_sorted]].
    destruct (Order.sort_createdAt_desc (orders db)) as [|x l] eqn:Hsort; [|reflexivity].
    apply (proj1 (sort_nil _)) in Hsort. contradiction.
Qed.

Lemma find_remove_same (id : ObjectId) (l : list order) :
  NoDup (List.map o_id l) ->
  List.find (Order.by_id id) (Order.remove_first id l) = None.
Proof.
  induction l as [|o l IH]; [reflexivity|].
  cbn [List.map Order.remove_first]. intros Hn. inversion Hn as [|x xs Hx Hxs]; subst.
  destruct (Nat.eqb_spec (o_id o) id) as [He|He].
  - apply find_none_all. intros y Hin. unfold Order.by_id.
    destruct (Nat.eqb_spec (o_id y) id) as [Hy|]; [|reflexivity].
    exfalso. apply Hx. apply in_map_iff. exists y. split; [congruence|exact Hin].
  - cbn [List.find]. unfold Order.by_id at 1.
    destruct (Nat.eqb_spec (o_id o) id); [contradiction|exact (IH Hxs)].
Qed.

Lemma remove_first_length (id : ObjectId) (l : list order) (o : order) :
  List.find (Order.by_id id) l = Some o ->
  S (List.length (Order.remove_first id l)) = List.length l.
Proof.
  induction l as [|x l IH]; [discriminate|].
  cbn [List.find Order.remove_first]. unfold Order.by_id at 1.
  destruct (Nat.eqb (o_id x) id); [reflexivity|].
  intros Hf. cbn [List.length]. rewrite (IH Hf). reflexivity.
Qed.

(** X8. DELETE /orders/:id, when the database answers and no two stored
    orders share an id.  When the route parameter casts to an ObjectId: for
    an id under which an order is stored the response is 200 with that
    order, one order fewer is stored, none under the id, the orders under
    other ids are as before, and a second deletion of the id is answered
    404; for an id under which no order is stored the response is 404 and
    the database is as it was.  When the route parameter does not cast to
    an ObjectId, as every string of fewer than twelve characters, the
    response is 500 "Error deleting order", not 404, and the database is
    as it was. *)
Theorem delete_orders_removes (env env' : Env) (db : DB) (id : string) :
  store_ok env = true -> store_ok env' = true ->
  NoDup (order_ids db) ->
  (forall oid o,
      castObjectId id = Some oid ->
      List.find (Order.by_id oid) (orders db) = Some o ->
      fst (delete_orders env db id) = json 200 (OrderDeleted o)
      /\ S (List.length (orders (snd (delete_orders env db id)))) = List.length (orders db)
      /\ List.find (Order.by_id oid) (orders (snd (delete_orders env db id))) = None
      /\ (forall oid', oid' <> oid ->
            List.find (Order.by_id oid') (orders (snd (delete_orders env db id)))
            = List.find (Order.by_id oid') (orders db))
      /\ delete_orders env' (snd (delete_orders env db id)) id
         = (json 404 (Message "Order not found"), snd (delete_orders env db id)))
  /\ (forall oid,
        castObjectId id = Some oid ->
        List.find (Order.by_id oid) (orders db) = None ->
        delete_orders env db id = (json 404 (Message "Order not found"), db))
  /\ (castObjectId id = None ->
      delete_orders env db id = (json 500 (MessageError "Error deleting order"), db))
  /\ (String.length id < 12 ->
      delete_orders env db id = (json 500 (MessageError "Error deleting order"), db)).
Proof.
  intros Hs Hs' Hn. unfold delete_orders, Order.findByIdAndDelete.
  rewrite Hs, Hs'. unfold_async. split; [|split; [|split]].
  - intros oid o Hc Hf. rewrite Hc, Hf. cbn [fst snd orders].
    pose proof (find_remove_same oid (orders db) Hn) as Hgone.
    split; [reflexivity|].
    split; [exact (remove_first_length oid (orders db) o Hf)|].
    split; [exact Hgone|].
    split; [|rewrite Hgone; reflexivity].
    intros oid' Hne. apply find_remove_other. exact Hne.
  - intros oid Hc Hf. rewrite Hc, Hf. reflexivity.
  - intros Hc. rewrite Hc. reflexivity.
  - intros Hl. rewrite (castObjectId_short id Hl). reflexivity.
Qed.

(** X9. POST /food-items with a name, a price, a description, a type or an
    image that is missing or empty is answered 400 "All fields are
    required", and nothing is stored, whether the database answers or
    not. *)
Theorem food_item_fields_required
    (env : Env) (db : DB) (b : FoodItemBody) (file : option string) :
  Js.falsy (fb_name b) = true \/ Js.falsy (fb_price b) = true
  \/ Js.falsy (fb_description b) = true \/ Js.falsy (fb_type b) = true
  \/ Js.falsy file = true ->
  post_food_items Number_cast env db b file
  = (json 400 (Message "All fields are required"), db).
Proof.
  intros Hm. unfold post_food_items.
  assert (Ht : Js.falsy (fb_name b) || Js.falsy (fb_price b)
               || Js.falsy (fb_description b) || Js.falsy (fb_type b)
               || Js.falsy file = true).
  { repeat rewrite orb_true_iff. tauto. }
  rewrite Ht. reflexivity.
Qed.

(** X10. POST /food-items with the five fields present: when the database
    answers, the price casts to a number and the uuid drawn is not the id
    of a stored item, the response is 201 with the new item, stored after
    the others; in every other case the response is 400 "Error adding food
    item" (never 500) and nothing is stored. *)
Theorem food_item_added_or_refused
    (env : Env) (db : DB) (b : FoodItemBody) (file : option string) :
  Js.falsy (fb_name b) = false -> Js.falsy (fb_price b) = false ->
  Js.falsy (fb_description b) = false -> Js.falsy (fb_type b) = false ->
  Js.falsy file = false ->
  (forall price,
      store_ok env = true -> Number_cast (str (fb_price b)) = Some price ->
      ~ In (uuid env) (food_ids db) ->
      exists item,
        post_food_items Number_cast env db b file
        = (json 201 (FoodItemJson item),
           {| foodItems := (foodItems db ++ [item])%list;
              orders := orders db; users := users db; next_id := next_id db |})
        /\ fi_id item = uuid env /\ fi_name item = str (fb_name b)
        /\ fi_price item = price /\ fi_image item = str file
        /\ fi_description item = str (fb_description b)
        /\ fi_type item = str (fb_type b))
  /\ (store_ok env = false \/ Number_cast (str (fb_price b)) = None
      \/ In (uuid env) (food_ids db) ->
      post_food_items Number_cast env db b file
      = (json 400 (MessageError "Error adding food item"), db)).
Proof.
  intros H1 H2 H3 H4 H5. unfold post_food_items, FoodItem.save.
  rewrite H1, H2, H3, H4, H5. cbn [orb]. unfold_async.
  assert (Hex : forall item : foodItem,
             existsb (fun f => String.eqb (fi_id f) (fi_id item)) (foodItems db) = true
             <-> In (fi_id item) (food_ids db)).
  { intros item. rewrite existsb_exists. unfold food_ids. rewrite in_map_iff.
    split; intros (f & Ha & Hb).
    - exists f. split; [apply String.eqb_eq; exact Hb|exact Ha].
    - exists f. split; [exact Hb|apply String.eqb_eq; exact Ha]. }
  split.
  - intros price Hs Hc Hnew. rewrite Hc, Hs.
    eexists. split.
    + match goal with
      | |- context [existsb ?f ?l] => destruct (existsb f l) eqn:He
      end.
      * exfalso. apply Hnew.
        apply (proj1 (Hex {| fi_id := uuid env; fi_name := str (fb_name b);
                             fi_image := str file; fi_price := price;
                             fi_description := str (fb_description b);
                             fi_type := str (fb_type b) |})). exact He.
      * reflexivity.
    + cbn [fi_id fi_name fi_price fi_image fi_description fi_type].
      repeat (split; [reflexivity|]). reflexivity.
  - intros Hbad. destruct (Number_cast (str (fb_price b))) as [price|]; [|reflexivity].
    destruct (store_ok env); [|reflexivity].
    destruct Hbad as [Hbad|[Hbad|Hbad]]; try discriminate Hbad.
    match goal with
    | |- context [existsb ?f ?l] => destruct (existsb f l) eqn:He
    end; [reflexivity|].
    rewrite <- not_true_iff_false in He. exfalso. apply He.
    apply (proj2 (Hex {| fi_id := uuid env; fi_name := str (fb_name b);
                         fi_image := str file; fi_price := price;
                         fi_description := str (fb_description b);
                         fi_type := str (fb_type b) |})). exact Hbad.
Qed.

Lemma food_find_remove_same (id : string) (l : list foodItem) :
  NoDup (List.map fi_id l) ->
  List.find (fun f => String.eqb (fi_id f) id) (FoodItem.remove_first id l) = None.
Proof.
  induction l as [|x l IH]; [reflexivity|].
  cbn [List.map FoodItem.remove_first]. intros Hn. inversion Hn as [|y ys Hy Hys]; subst.
  destruct (String.eqb_spec (fi_id x) id) as [He|He].
  - apply find_none_all. intros g Hin.
    destruct (String.eqb_spec (fi_id g) id) as [Hg|]; [|reflexivity].
    exfalso. apply Hy. apply in_map_iff. exists g. split; [congruence|exact Hin].
  - cbn [List.find]. destruct (String.eqb_spec (fi_id x) id); [contradiction|exact (IH Hys)].
Qed.

(** X11. DELETE /food-items/:id, when the database answers and no two stored
    items share an id: a stored item is answered 200 with the item and is
    stored no more, so that the next listing does not show an item of the
    id; an id that is not stored is answered 404 and nothing changes. *)
Theorem delete_food_item_removes (env env' : Env) (db : DB) (id : string) :
  store_ok env = true -> store_ok env' = true ->
  NoDup (food_ids db) ->
  (forall item,
      List.find (fun f => String.eqb (fi_id f) id) (foodItems db) = Some item ->
      fst (delete_food_items env db id) = json 200 (FoodItemDeleted item)
      /\ fi_id item = id
      /\ In item (foodItems db)
      /\ exists items,
           get_food_items env' (snd (delete_food_items env db id))
           = (json 200 (FoodItems items), snd (delete_food_items env db id))
           /\ (forall f, In f items -> In f (foodItems db) /\ fi_id f <> id))
  /\ (List.find (fun f => String.eqb (fi_id f) id) (foodItems db) = None ->
      delete_food_items env db id = (json 404 (Message "Food item not found"), db)).
Proof.
  intros Hs Hs' Hn. unfold delete_food_items, FoodItem.findByIdAndDelete.
  rewrite Hs. unfold_async. split.
  - intros item Hf. rewrite Hf. cbn [fst snd].
    apply find_some in Hf. destruct Hf as [Hin Hid]. apply String.eqb_eq in Hid.
    split; [reflexivity|]. split; [exact Hid|]. split; [exact Hin|].
    unfold get_food_items, FoodItem.find. rewrite Hs'. unfold_async. cbn [foodItems].
    eexists. split; [reflexivity|].
    intros f Hf. split; [exact (food_remove_first_in _ _ _ Hf)|].
    intros Heq. pose proof (food_find_remove_same id (foodItems db) Hn) as Hgone.
    assert (Hsome : exists g, List.find (fun f => String.eqb (fi_id f) id)
                                (FoodItem.remove_first id (foodItems db)) = Some g).
    { apply (find_exists _ _ f Hf). apply String.eqb_eq. exact Heq. }
    destruct Hsome as [g Hg]. congruence.
  - intros Hf. rewrite Hf. reflexivity.
Qed.

End Catalog.

(** ** Sessions *)

Section Sessions.
Context `{jwt.Package} `{Bcrypt} `{Mongoose}.

(** X12. The guard reads the second field of the Authorization header and
    nothing else: whatever word stands first, and whatever follows the
    second field, the credential is the second field; a header without a
    space carries none and is answered 401. *)
Theorem bearer_is_second_field (req : Request) (scheme token : string) :
  Js.free " " scheme = true -> Js.free " " token = true ->
  (authorization req = Some (scheme ++ " " ++ token) -> bearer req = Some token)
  /\ (forall rest, authorization req = Some (scheme ++ " " ++ token ++ " " ++ rest) ->
                   bearer req = Some token)
  /\ (authorization req = Some scheme ->
      forall env, authenticateJWT env req = inl (send 401 "Access denied")).
Proof.
  intros Hsch Htok. unfold authenticateJWT, bearer. split; [|split].
  - intros ->. change (scheme ++ " " ++ token) with (scheme ++ String " " token).
    rewrite (split_app _ _ _ Hsch), (split_free _ _ Htok). reflexivity.
  - intros rest ->.
    change (scheme ++ " " ++ token ++ " " ++ rest)
      with (scheme ++ String " " (token ++ String " " rest)).
    rewrite (split_app _ _ _ Hsch), (split_app _ _ _ Htok). reflexivity.
  - intros -> env. rewrite (split_free _ _ Hsch). reflexivity.
Qed.



(** X15. A sign-in that is answered with a token had a password that is a
    string, found a stored user with the filter of its identifier, and
    that password compares to the stored hash of that user; the token is
    signed for the email of that user, and the name and the email of the
    answer are that user's.  When the identifier is a string, that user
    has it as email or as mobile number; when the identifier is missing or
    null, that user is one without email or without mobile number, signed
    in on the password alone. *)
Theorem signin_sound
    (env : Env) (db : DB) (b : SigninBody) (token : string) (name email : option string) :
  body (fst (signin env db b)) = AuthJson token name email ->
  exists filter u h p,
    by_identifier (identifier b) = Some filter
    /\ List.find filter (users db) = Some u
    /\ In u (users db)
    /\ password b = JsString p
    /\ u_password u = Some h
    /\ bcrypt_compare p h = true
    /\ token = jwt.sign (signed (u_email u)) JWT_SECRET (now env)
    /\ name = u_name u /\ email = u_email u
    /\ snd (signin env db b) = db
    /\ (forall s, identifier b = JsString s ->
                  u_email u = Some s \/ u_mobile u = Some s)
    /\ (identifier b = JsUndefined \/ identifier b = JsNull ->
        u_email u = None \/ u_mobile u = None).
Proof.
  unfold signin. destruct (by_identifier (identifier b)) as [filter|] eqn:Hby;
    unfold User.findOne; unfold_async; [|discriminate].
  destruct (store_ok env); [|discriminate].
  destruct (List.find filter (users db)) as [u|] eqn:Hf; [|discriminate].
  unfold compare_stored.
  destruct (password b) as [| | | |p| |] eqn:Hpw; try discriminate.
  destruct (u_password u) as [h|] eqn:Hp; [|discriminate].
  unfold resolve.
  destruct (bcrypt_compare p h) eqn:Hc; cbn [negb]; [|discriminate].
  cbn [fst snd body json]. intros [= <- <- <-].
  pose proof (find_some _ _ Hf) as [Hin Hm].
  exists filter, u, h, p.
  split; [reflexivity|]. split; [exact Hf|]. split; [exact Hin|].
  split; [reflexivity|]. split; [exact Hp|]. split; [exact Hc|].
  split; [reflexivity|]. split; [reflexivity|]. split; [reflexivity|].
  split; [reflexivity|]. split.
  - intros s Hid. destruct (by_identifier_string s) as (g & Hg & Hmeans).
    rewrite Hid in Hby. rewrite Hg in Hby. injection Hby as <-.
    rewrite Hmeans in Hm. apply orb_true_iff in Hm.
    destruct Hm as [Hm|Hm]; apply option_eqb_eq in Hm; auto.
  - intros Hid. destruct (by_identifier_missing (identifier b) Hid) as (g & Hg & Hmeans).
    rewrite Hg in Hby. injection Hby as <-.
    rewrite Hmeans in Hm. apply orb_true_iff in Hm.
    destruct Hm as [Hm|Hm]; apply option_eqb_eq in Hm; auto.
Qed.

Lemma signup_201
    (env : Env) (db : DB) (b : SignupBody) (file : option string) :
  code (fst (signup env db b file)) = 201 ->
  signup env db b file
  = (json 201 (AuthJson (jwt.sign (signed (sb_email b)) JWT_SECRET (now env))
                        (sb_name b) (sb_email b)),
     {| foodItems := foodItems db;
        orders := orders db;
        users := (users db ++
                  [{| u_id := next_id db;
                      u_name := sb_name b;
                      u_mobile := sb_mobile b;
                      u_email := sb_email b;
                      u_password := Some (bcrypt_hash (sb_password b) (salt env));
                      u_profileImage := file |}])%list;
        next_id := S (next_id db) |})
  /\ (forall v, In v (users db) ->
                u_email v <> sb_email b /\ u_mobile v <> sb_mobile b).
Proof.
  unfold signup, User.findOne, User.save, User.new. unfold_async.
  destruct (store_ok env); [|cbn; discriminate].
  destruct (List.find _ (users db)) as [v|] eqn:Hf; [cbn; discriminate|].
  cbn [u_name u_password u_email].
  destruct (required (sb_name b) && required (Some (bcrypt_hash (sb_password b) (salt env))));
    [|cbn; discriminate].
  destruct (User.duplicate_key db _); [cbn; discriminate|].
  intros _. split; [reflexivity|].
  intros v Hin. pose proof (find_none _ _ Hf v Hin) as Hm. unfold email_or_mobile in Hm.
  apply orb_false_iff in Hm. destruct Hm as [He Hm].
  split; intros Heq; apply option_eqb_eq in Heq; congruence.
Qed.

(** X16. A registration that is answered 201 stored exactly one new user, after
    the others: with the name, mobile number, email and image of the
    request and, as password, the bcrypt hash of the password of the
    request under the salt drawn; no stored user had the email or the
    mobile number; the token of the answer is signed for the email. *)
Theorem signup_created
    (env : Env) (db : DB) (b : SignupBody) (file : option string) :
  code (fst (signup env db b file)) = 201 ->
  signup env db b file
  = (json 201 (AuthJson (jwt.sign (signed (sb_email b)) JWT_SECRET (now env))
                        (sb_name b) (sb_email b)),
     {| foodItems := foodItems db;
        orders := orders db;
        users := (users db ++
                  [{| u_id := next_id db;
                      u_name := sb_name b;
                      u_mobile := sb_mobile b;
                      u_email := sb_email b;
                      u_password := Some (bcrypt_hash (sb_password b) (salt env));
                      u_profileImage := file |}])%list;
        next_id := S (next_id db) |})
  /\ (forall v, In v (users db) ->
                u_email v <> sb_email b /\ u_mobile v <> sb_mobile b).
Proof.
  exact (signup_201 env db b file).
Qed.

(** X17. A registration without a name, or with an empty one, that meets no
    stored email or mobile number is refused by the save and answered 500;
    nothing is stored. *)
Theorem signup_without_name
    (env : Env) (db : DB) (b : SignupBody) (file : option string) :
  store_ok env = true ->
  sb_name b = None \/ sb_name b = Some "" ->
  (forall v, In v (users db) -> u_email v <> sb_email b /\ u_mobile v <> sb_mobile b) ->
  signup env db b file = (send 500 "Error registering user", db).
Proof.
  intros Hs Hname Hfree. unfold signup, User.findOne, User.save, User.new.
  rewrite Hs. unfold_async.
  rewrite find_none_all.
  - cbn [u_name]. assert (Hr : required (sb_name b) = false)
      by (destruct Hname as [-> | ->]; reflexivity).
    rewrite Hr. reflexivity.
  - intros v Hin. destruct (Hfree v Hin) as [He Hm]. unfold email_or_mobile.
    apply orb_false_iff. split.
    + destruct (option_eqb (u_email v) (sb_email b)) eqn:E; [|reflexivity].
      apply option_eqb_eq in E. contradiction.
    + destruct (option_eqb (u_mobile v) (sb_mobile b)) eqn:E; [|reflexivity].
      apply option_eqb_eq in E. contradiction.
Qed.

(** X19. The token of a registration opens the profile: after a registration
    with an email that is answered 201, GET /profile with the header
    [Bearer <token>] of the answer is answered, when the database answers,
    200 with the user just stored, without the password. *)
Theorem signup_then_profile
    (env env' : Env) (db : DB) (b : SignupBody) (file : option string)
    (e : string) (req : Request) :
  code (fst (signup env db b file)) = 201 ->
  sb_email b = Some e ->
  store_ok env' = true ->
  authorization req
  = Some ("Bearer " ++ jwt.sign (signed (Some e)) JWT_SECRET (now env)) ->
  get_profile env' (snd (signup env db b file)) req
  = (json 200 (Profile {| u_id := next_id db;
                          u_name := sb_name b;
                          u_mobile := sb_mobile b;
                          u_email := Some e;
                          u_password := None;
                          u_profileImage := file |}),
     snd (signup env db b file)).
Proof.
  intros Hc He Hs' Ha. destruct (signup_201 env db b file Hc) as [Hup Hfree].
  rewrite Hup. cbn [snd]. unfold get_profile, guarded.
  rewrite (guard_issued env' req _ _ Ha). unfold get_profile_handler, User.findOne.
  cbn [req_user set_user issued_at claim_email users]. rewrite Hs'. unfold_async.
  rewrite find_app_new.
  - cbn [without_password u_id u_name u_mobile u_email u_profileImage].
    rewrite He. reflexivity.
  - intros v Hin. destruct (Hfree v Hin) as [Hne _]. unfold issued_at. cbn [claim_email].
    destruct (option_eqb (u_email v) (Some e)) eqn:E; [|reflexivity].
    apply option_eqb_eq in E. rewrite He in Hne. contradiction.
  - unfold issued_at. cbn [u_email claim_email]. rewrite He. cbn [option_eqb].
    apply String.eqb_refl.
Qed.

(** X20. An order placed with an email is listed for that email: when the
    database answers, after POST /orders with a body that casts to a
    purchaser snapshot with an email, the handler of GET /orders for a
    claim with that email answers 200 with a list that holds the placed
    order, with status Pending. *)
Theorem placed_order_is_listed
    (env env' : Env) (db : DB) (b : OrderBody) (f : orderFields) (d : userDetailsT)
    (e : string) (req : Request) (claim : Payload) :
  store_ok env = true -> store_ok env' = true ->
  castOrder b = Some f ->
  of_userDetails f = Some d -> ud_email d = Some e ->
  req_user req = Some claim -> claim_email claim = Some e ->
  exists l,
    get_orders_handler env' (snd (post_orders env db b)) req
    = (json 200 (Orders l), snd (post_orders env db b))
    /\ In (placed env db f) l
    /\ status (placed env db f) = "Pending".
Proof.
  intros Hs Hs' Hf Hd He Hu Hc. rewrite (post_orders_ok env db b f Hs Hf). cbn [snd].
  unfold get_orders_handler, Order.find. rewrite Hu, Hs'. unfold_async.
  rewrite Hc. cbn [orders with_orders].
  assert (Hin : In (placed env db f)
                   (Order.sort_createdAt_desc
                      (List.filter (by_email (Some e))
                         (orders db ++ [placed env db f])%list))).
  { apply (Permutation_in _ (Permutation_sym (sort_perm _))). apply filter_In.
    split; [apply in_or_app; right; left; reflexivity|].
    unfold by_email, placed. cbn [userDetails]. rewrite Hd, He.
    cbn [option_eqb]. apply String.eqb_refl. }
  eexists. split; [|split; [exact Hin|reflexivity]].
  destruct (Order.sort_createdAt_desc _) as [|x l]; [destruct Hin|reflexivity].
Qed.

End Sessions.

(** ** Updates seen by the listings *)

Section Composition.
Context `{jwt.Package} `{Bcrypt} `{Mongoose}.
Variable Number_cast : string -> option Q.

Lemma in_update_first_same (id : ObjectId) (f : order -> order) (l : list order) (o : order) :
  List.find (Order.by_id id) l = Some o -> In (f o) (Order.update_first id f l).
Proof.
  induction l as [|x l IH]; [discriminate|].
  cbn [List.find Order.update_first]. unfold Order.by_id at 1.
  destruct (Nat.eqb (o_id x) id).
  - intros [= ->]. left. reflexivity.
  - intros Hf. right. exact (IH Hf).
Qed.

Lemma update_first_unique (id : ObjectId) (f : order -> order) (l : list order) (x : order) :
  (forall o, o_id (f o) = o_id o) ->
  NoDup (List.map o_id l) ->
  In x (Order.update_first id f l) -> o_id x = id ->
  exists o, List.find (Order.by_id id) l = Some o /\ x = f o.
Proof.
  intros Hf. induction l as [|y l IH]; [intros _ []|].
  cbn [List.map Order.update_first List.find]. intros Hn Hin Hid.
  inversion Hn as [|z zs Hz Hzs]; subst. unfold Order.by_id at 1.
  destruct (Nat.eqb_spec (o_id y) (o_id x)) as [He|He].
  - destruct Hin as [<-|Hin]; [exists y; split; reflexivity|].
    exfalso. apply Hz. apply in_map_iff. exists x. split; [congruence|exact Hin].
  - destruct Hin as [<-|Hin]; [contradiction|]. exact (IH Hzs Hin eq_refl).
Qed.

(** X21. A status update shows in the listing: when the database answers and no
    two stored orders share an id, after PUT /orders/:id with one of the
    three values on a stored order whose purchaser snapshot has an email,
    the handler of GET /orders for a claim with that email answers 200
    with a list that holds the order with the new status, and every order
    of that id in the list has the new status. *)
Theorem status_update_is_listed
    (env env' : Env) (db : DB) (id : string) (oid : ObjectId) (s e : string)
    (o : order) (req : Request) (claim : Payload) :
  store_ok env = true -> store_ok env' = true ->
  NoDup (order_ids db) ->
  In s status_enum ->
  castObjectId id = Some oid ->
  List.find (Order.by_id oid) (orders db) = Some o ->
  ud_email (userDetails o) = Some e ->
  req_user req = Some claim -> claim_email claim = Some e ->
  exists l,
    get_orders_handler env' (snd (put_orders env db id (JsString s))) req
    = (json 200 (Orders l), snd (put_orders env db id (JsString s)))
    /\ In (Order.set_status s (now env) o) l
    /\ forall x, In x l -> o_id x = oid -> status x = s.
Proof.
  intros Hs Hs' Hn Hin Hcast Hf He Hu Hc.
  rewrite (put_orders_found env db id oid s o Hs Hin Hcast Hf). cbn [snd].
  unfold get_orders_handler, Order.find. rewrite Hu, Hs'. unfold_async.
  rewrite Hc. cbn [orders with_orders].
  set (updated := Order.update_first oid (Order.set_status s (now env)) (orders db)).
  assert (Hl : In (Order.set_status s (now env) o)
                  (Order.sort_createdAt_desc (List.filter (by_email (Some e)) updated))).
  { apply (Permutation_in _ (Permutation_sym (sort_perm _))). apply filter_In.
    split; [apply in_update_first_same; exact Hf|].
    unfold by_email. cbn [Order.set_status userDetails]. rewrite He.
    cbn [option_eqb]. apply String.eqb_refl. }
  eexists. split; [|split; [exact Hl|]].
  - destruct (Order.sort_createdAt_desc _) as [|x l]; [destruct Hl|reflexivity].
  - intros x Hx Hid. apply (Permutation_in _ (sort_perm _)) in Hx.
    apply filter_In in Hx. destruct Hx as [Hx _].
    destruct (update_first_unique oid (Order.set_status s (now env)) (orders db) x
                (fun _ => eq_refl) Hn Hx Hid) as (o' & _ & ->).
    reflexivity.
Qed.

(** X3. Every route writes to its own collection only: the order routes leave
    the food items and the users as they were, the sign-up routes the
    food items and the orders, the food item routes the orders and the
    users; no route but POST /orders and the sign-up routes draws an
    ObjectId. *)
Theorem routes_write_their_collection (env : Env) (db : DB) (c : Call) :
  match c with
  | POST_orders _ =>
      foodItems (snd (handle Number_cast env db c)) = foodItems db
      /\ users (snd (handle Number_cast env db c)) = users db
  | PUT_orders _ _ | DELETE_orders _ =>
      foodItems (snd (handle Number_cast env db c)) = foodItems db
      /\ users (snd (handle Number_cast env db c)) = users db
      /\ next_id (snd (handle Number_cast env db c)) = next_id db
  | POST_signup _ _ | POST_adminsignup _ _ =>
      foodItems (snd (handle Number_cast env db c)) = foodItems db
      /\ orders (snd (handle Number_cast env db c)) = orders db
  | _ =>
      orders (snd (handle Number_cast env db c)) = orders db
      /\ users (snd (handle Number_cast env db c)) = users db
      /\ next_id (snd (handle Number_cast env db c)) = next_id db
  end.
Proof.
  destruct c; cbn [handle]; unfold_handlers; split_tests;
    cbn [snd fst foodItems orders users next_id];
    repeat match goal with
           | E : Some _ = Some _ |- _ => injection E as E; subst
           | E : (_, _) = (_, _) |- _ => injection E as ? ?; subst
           end;
    cbn [snd fst foodItems orders users next_id]; repeat split; reflexivity.
Qed.

End Composition.


(** ** The theorems on concrete requests *)

Section Witnesses.
Import Sample Cases.
#[local] Existing Instance ReferenceLaws.jwt.
#[local] Existing Instance ReferenceLaws.bcrypt.
#[local] Existing Instance ReferenceLaws.mongoose.

Lemma guard_outcomes_witness :
  (Js.falsy (bearer no_header) = true
   /\ authenticateJWT env1 no_header = inl (send 401 "Access denied"))
  /\ (bearer (bearing "abc.def") = Some "abc.def"
      /\ "abc.def" <> ""
      /\ jwt.verify "abc.def" JWT_SECRET (now env1) = inl JsonWebTokenError
      /\ authenticateJWT env1 (bearing "abc.def") = inl (send 403 "Invalid token"))
  /\ (bearer (bearing alice_token) = Some alice_token
      /\ alice_token <> ""
      /\ jwt.verify alice_token JWT_SECRET (now env1) = inr alice
      /\ authenticateJWT env1 (bearing alice_token)
         = inr (set_user (bearing alice_token) alice)).
Proof.
  assert (H1 : Js.falsy (bearer no_header) = true) by reflexivity.
  assert (H2 : bearer (bearing "abc.def") = Some "abc.def") by reflexivity.
  assert (H3 : "abc.def" <> "") by discriminate.
  assert (H4 : jwt.verify "abc.def" JWT_SECRET (now env1) = inl JsonWebTokenError)
    by (vm_compute; reflexivity).
  assert (H5 : bearer (bearing alice_token) = Some alice_token)
    by (vm_compute; reflexivity).
  assert (H6 : alice_token <> "") by (vm_compute; discriminate).
  assert (H7 : jwt.verify alice_token JWT_SECRET (now env1) = inr alice)
    by (vm_compute; reflexivity).
  split; [split; [exact H1|]|split].
  - exact (proj1 (proj1 (guard_outcomes env1 no_header) H1)).
  - split; [exact H2|]. split; [exact H3|]. split; [exact H4|].
    exact (proj1 (proj1 (proj2 (guard_outcomes env1 (bearing "abc.def"))) _ _ H2 H3 H4)).
  - split; [exact H5|]. split; [exact H6|]. split; [exact H7|].
    exact (proj1 (proj1 (proj2 (proj2 (guard_outcomes env1 (bearing alice_token))))
                   _ _ H5 H6 H7)).
Defined.

Lemma placed_order_stays_pending_witness :
  wf empty_db
  /\ code (fst (post_orders env0 empty_db burger)) = 201
  /\ status_of (snd (post_orders env0 empty_db burger)) 0 = Some "Pending"
  /\ forallb (fun ec => negb (is_put 0 (snd ec))) later_calls = true
  /\ forallb (fun ec => negb (is_delete 0 (snd ec))) later_calls = true
  /\ status_of (run Reference.number_cast (snd (post_orders env0 empty_db burger)) later_calls) 0
     = Some "Pending".
Proof.
  assert (Hwf : wf empty_db) by constructor.
  assert (Hc : code (fst (post_orders env0 empty_db burger)) = 201) by reflexivity.
  assert (Hp : forallb (fun ec => negb (is_put 0 (snd ec))) later_calls = true)
    by (vm_compute; reflexivity).
  assert (Hd : forallb (fun ec => negb (is_delete 0 (snd ec))) later_calls = true)
    by (vm_compute; reflexivity).
  destruct (placed_order_stays_pending Reference.number_cast env0 empty_db burger Hwf Hc)
    as (_ & Hst & Hrun & _).
  split; [exact Hwf|]. split; [exact Hc|]. split; [exact Hst|].
  split; [exact Hp|]. split; [exact Hd|].
  exact (proj2 (Hrun later_calls Hp) Hd).
Defined.

(** A request with no purchaser snapshot and an empty line list, which is
    the body of the fields with no snapshot and no line, is answered 201,
    and an order is stored. *)
Lemma place_accepts_empty_order :
  empty_order = json_order empty_fields
  /\ ob_userDetails empty_order = JsUndefined
  /\ ob_orderDetails empty_order = JsArray []
  /\ code (fst (post_orders env0 empty_db empty_order)) = 201
  /\ List.length (orders (snd (post_orders env0 empty_db empty_order))) = 1
  /\ orders (snd (post_orders env0 empty_db empty_order)) <> orders empty_db.
Proof.
  split; [reflexivity|]. split; [reflexivity|]. split; [reflexivity|].
  split; [reflexivity|]. split; [reflexivity|]. cbn. discriminate.
Qed.

Lemma place_not_validated_witness :
  store_ok env0 = true
  /\ castOrder empty_order = Some empty_fields
  /\ post_orders env0 empty_db empty_order =
     (json 201 (Message "Order submitted successfully"),
      with_orders empty_db [placed env0 empty_db empty_fields] 1)
  /\ castOrder malformed_order = None
  /\ post_orders env0 empty_db malformed_order
     = (json 500 (Message "Failed to submit order"), empty_db)
  /\ ob_totalAmount listed_total = JsArray [JsNumber (10 # 1)%Q]
  /\ post_orders env0 empty_db listed_total
     = (json 500 (Message "Failed to submit order"), empty_db).
Proof.
  assert (Hc : castOrder empty_order = Some empty_fields) by reflexivity.
  assert (Hm : castOrder malformed_order = None) by reflexivity.
  split; [reflexivity|]. split; [exact Hc|].
  split; [|split; [exact Hm|split; [|split; [reflexivity|]]]].
  - exact (proj1 (proj1 (place_not_validated env0 empty_db) empty_order empty_fields
                    eq_refl Hc)).
  - exact (proj1 (proj2 (proj2 (place_not_validated env0 empty_db))) malformed_order
             (or_intror Hm)).
  - exact (proj2 (proj2 (proj2 (place_not_validated env0 empty_db))) listed_total _
             eq_refl).
Defined.

Lemma invalid_status_rejected_witness :
  (forall s, In s status_enum -> JsString "Bogus" <> JsString s)
  /\ put_orders env1 with_burger id0 (JsString "Bogus")
     = (json 400 (Message "Invalid status"), with_burger).
Proof.
  assert (Hout : forall s, In s status_enum -> JsString "Bogus" <> JsString s).
  { intros s [<-|[<-|[<-|[]]]]; discriminate. }
  split; [exact Hout|].
  exact (invalid_status_rejected env1 with_burger id0 (JsString "Bogus") Hout).
Defined.

(** A status update on the route parameter "7", under which no order is
    stored, is answered 500, not 404. *)
Lemma put_malformed_id_is_500 :
  In "Pending" status_enum
  /\ String.length no_id < 12
  /\ castObjectId no_id = None
  /\ put_orders env1 with_burger no_id (JsString "Pending")
     = (json 500 (MessageError "Error updating order"), with_burger)
  /\ code (fst (put_orders env1 with_burger no_id (JsString "Pending"))) <> 404.
Proof.
  split; [left; reflexivity|]. split; [cbn; lia|]. split; [reflexivity|].
  split; [reflexivity|]. cbn. discriminate.
Qed.

Lemma set_status_any_state_witness :
  In "Pending" status_enum
  /\ store_ok env1 = true
  /\ castObjectId id0 = Some 0
  /\ List.find (Order.by_id 0) (orders with_burger) = Some burger_order
  /\ status burger_order = "Delivered"
  /\ (exists o',
        fst (put_orders env1 with_burger id0 (JsString "Pending")) = json 200 (OrderJson o')
        /\ status o' = "Pending" /\ updatedAt o' = 2000%Z)
  /\ castObjectId id7 = Some 7
  /\ List.find (Order.by_id 7) (orders with_burger) = None
  /\ put_orders env1 with_burger id7 (JsString "Pending")
     = (json 404 (OrderNotFound id7), with_burger)
  /\ String.length no_id < 12
  /\ put_orders env1 with_burger no_id (JsString "Pending")
     = (json 500 (MessageError "Error updating order"), with_burger).
Proof.
  assert (Hin : In "Pending" status_enum) by (left; reflexivity).
  assert (Hc0 : castObjectId id0 = Some 0) by (vm_compute; reflexivity).
  assert (Hc7 : castObjectId id7 = Some 7) by (vm_compute; reflexivity).
  assert (Hf : List.find (Order.by_id 0) (orders with_burger) = Some burger_order)
    by reflexivity.
  assert (Hn : List.find (Order.by_id 7) (orders with_burger) = None) by reflexivity.
  assert (Hl : String.length no_id < 12) by (cbn; lia).
  split; [exact Hin|]. split; [reflexivity|]. split; [exact Hc0|]. split; [exact Hf|].
  split; [reflexivity|]. split; [|split; [exact Hc7|split; [exact Hn|split; [|split; [exact Hl|]]]]].
  - destruct (proj1 (set_status_any_state env1 with_burger id0 "Pending" Hin)
                0 burger_order eq_refl Hc0 Hf) as (o' & Hr & Hst & Hup & _).
    exists o'. split; [exact Hr|]. split; [exact Hst|exact Hup].
  - exact (proj1 (proj2 (set_status_any_state env1 with_burger id7 "Pending" Hin))
             7 eq_refl Hc7 Hn).
  - exact (proj2 (proj2 (proj2 (set_status_any_state env1 with_burger no_id "Pending" Hin)))
             Hl).
Defined.





End Witnesses.

(** ** The further theorems on concrete requests *)

Section FurtherWitnesses.
Import Sample Cases.
#[local] Existing Instance ReferenceLaws.jwt.
#[local] Existing Instance ReferenceLaws.bcrypt.
#[local] Existing Instance ReferenceLaws.mongoose.

Lemma failed_call_changes_nothing_witness :
  400 <= code (fst (handle Reference.number_cast env1 with_burger
                      (PUT_orders no_id (JsString "Pending"))))
  /\ snd (handle Reference.number_cast env1 with_burger
            (PUT_orders no_id (JsString "Pending")))
     = with_burger.
Proof.
  assert (Hc : 400 <= code (fst (handle Reference.number_cast env1 with_burger
                                   (PUT_orders no_id (JsString "Pending")))))
    by (vm_compute; lia).
  split; [exact Hc|].
  exact (failed_call_changes_nothing Reference.number_cast env1 with_burger _ Hc).
Defined.

Lemma reading_changes_nothing_witness :
  reads_only (POST_signin signing_in) = true
  /\ snd (handle Reference.number_cast env1 with_alice (POST_signin signing_in)) = with_alice.
Proof.
  split; [reflexivity|].
  exact (reading_changes_nothing Reference.number_cast env1 with_alice
           (POST_signin signing_in) eq_refl).
Defined.

Lemma all_orders_listed_witness :
  store_ok env1 = true
  /\ orders with_burger <> []
  /\ (exists l, get_allorders env1 with_burger = (json 200 (Orders l), with_burger)
                /\ Permutation l (orders with_burger) /\ StronglySorted not_older l)
  /\ orders empty_db = []
  /\ get_allorders env1 empty_db = (json 404 (Message "No orders found"), empty_db).
Proof.
  assert (Hs : store_ok env1 = true) by reflexivity.
  assert (Hne : orders with_burger <> []) by (cbn; discriminate).
  split; [exact Hs|]. split; [exact Hne|].
  split; [exact (proj2 (all_orders_listed env1 with_burger Hs) Hne)|].
  split; [reflexivity|].
  exact (proj1 (all_orders_listed env1 empty_db Hs) eq_refl).
Defined.

Lemma delete_orders_removes_witness :
  store_ok env0 = true /\ store_ok env1 = true
  /\ NoDup (order_ids with_burger)
  /\ castObjectId id0 = Some 0
  /\ List.find (Order.by_id 0) (orders with_burger) = Some burger_order
  /\ fst (delete_orders env0 with_burger id0) = json 200 (OrderDeleted burger_order)
  /\ delete_orders env1 (snd (delete_orders env0 with_burger id0)) id0
     = (json 404 (Message "Order not found"), snd (delete_orders env0 with_burger id0))
  /\ castObjectId id7 = Some 7
  /\ List.find (Order.by_id 7) (orders with_burger) = None
  /\ delete_orders env0 with_burger id7 = (json 404 (Message "Order not found"), with_burger)
  /\ String.length no_id < 12
  /\ delete_orders env0 with_burger no_id
     = (json 500 (MessageError "Error deleting order"), with_burger).
Proof.
  assert (Hn : NoDup (order_ids with_burger))
    by (repeat constructor; intros []).
  assert (Hc0 : castObjectId id0 = Some 0) by (vm_compute; reflexivity).
  assert (Hc7 : castObjectId id7 = Some 7) by (vm_compute; reflexivity).
  assert (Hf : List.find (Order.by_id 0) (orders with_burger) = Some burger_order)
    by reflexivity.
  assert (Hnone : List.find (Order.by_id 7) (orders with_burger) = None) by reflexivity.
  assert (Hl : String.length no_id < 12) by (cbn; lia).
  destruct (proj1 (delete_orders_removes env0 env1 with_burger id0 eq_refl eq_refl Hn)
              0 burger_order Hc0 Hf) as (Hr & _ & _ & _ & Hagain).
  split; [reflexivity|]. split; [reflexivity|]. split; [exact Hn|]. split; [exact Hc0|].
  split; [exact Hf|]. split; [exact Hr|]. split; [exact Hagain|]. split; [exact Hc7|].
  split; [exact Hnone|]. split; [|split; [exact Hl|]].
  - exact (proj1 (proj2 (delete_orders_removes env0 env1 with_burger id7 eq_refl eq_refl Hn))
             7 Hc7 Hnone).
  - exact (proj2 (proj2 (proj2 (delete_orders_removes env0 env1 with_burger no_id
                                  eq_refl eq_refl Hn))) Hl).
Defined.

Lemma food_item_fields_required_witness :
  Js.falsy (fb_name nameless_body) = true
  /\ post_food_items Reference.number_cast down empty_db nameless_body (Some "uploads/1.png")
     = (json 400 (Message "All fields are required"), empty_db).
Proof.
  split; [reflexivity|].
  apply food_item_fields_required. left. reflexivity.
Defined.

Lemma food_item_added_or_refused_witness :
  Js.falsy (fb_name pizza_body) = false /\ Js.falsy (fb_price pizza_body) = false
  /\ Js.falsy (fb_description pizza_body) = false /\ Js.falsy (fb_type pizza_body) = false
  /\ Js.falsy (Some "uploads/1.png") = false
  /\ store_ok env0 = true
  /\ Reference.number_cast (str (fb_price pizza_body)) = Some (inject_Z 12)
  /\ ~ In (uuid env0) (food_ids empty_db)
  /\ (exists item,
        post_food_items Reference.number_cast env0 empty_db pizza_body (Some "uploads/1.png")
        = (json 201 (FoodItemJson item),
           {| foodItems := [item]; orders := []; users := []; next_id := 0 |})
        /\ fi_id item = "u1" /\ fi_price item = inject_Z 12)
  /\ In (uuid env0) (food_ids with_pizza)
  /\ post_food_items Reference.number_cast env0 with_pizza pizza_body (Some "uploads/1.png")
     = (json 400 (MessageError "Error adding food item"), with_pizza).
Proof.
  assert (Hc : Reference.number_cast (str (fb_price pizza_body)) = Some (inject_Z 12))
    by reflexivity.
  assert (Hnew : ~ In (uuid env0) (food_ids empty_db)) by (intros []).
  assert (Hold : In (uuid env0) (food_ids with_pizza)) by (left; reflexivity).
  split; [reflexivity|]. split; [reflexivity|]. split; [reflexivity|].
  split; [reflexivity|]. split; [reflexivity|]. split; [reflexivity|].
  split; [exact Hc|]. split; [exact Hnew|].
  split; [|split; [exact Hold|]].
  - destruct (proj1 (food_item_added_or_refused Reference.number_cast env0 empty_db
                       pizza_body (Some "uploads/1.png")
                       eq_refl eq_refl eq_refl eq_refl eq_refl)
                (inject_Z 12) eq_refl Hc Hnew)
      as (item & Hr & Hid & _ & Hp & _).
    exists item. split; [exact Hr|]. split; [exact Hid|exact Hp].
  - apply (proj2 (food_item_added_or_refused Reference.number_cast env0 with_pizza
                    pizza_body (Some "uploads/1.png")
                    eq_refl eq_refl eq_refl eq_refl eq_refl)).
    right. right. exact Hold.
Defined.

Lemma delete_food_item_removes_witness :
  store_ok env0 = true /\ store_ok env1 = true
  /\ NoDup (food_ids with_pizza)
  /\ List.find (fun f => String.eqb (fi_id f) "u1") (foodItems with_pizza) = Some pizza
  /\ fst (delete_food_items env0 with_pizza "u1") = json 200 (FoodItemDeleted pizza)
  /\ List.find (fun f => String.eqb (fi_id f) "u9") (foodItems with_pizza) = None
  /\ delete_food_items env0 with_pizza "u9"
     = (json 404 (Message "Food item not found"), with_pizza).
Proof.
  assert (Hn : NoDup (food_ids with_pizza)) by (repeat constructor; intros []).
  assert (Hf : List.find (fun f => String.eqb (fi_id f) "u1") (foodItems with_pizza)
               = Some pizza) by reflexivity.
  assert (Hnone : List.find (fun f => String.eqb (fi_id f) "u9") (foodItems with_pizza)
                  = None) by reflexivity.
  split; [reflexivity|]. split; [reflexivity|]. split; [exact Hn|]. split; [exact Hf|].
  split; [|split; [exact Hnone|]].
  - exact (proj1 (proj1 (delete_food_item_removes env0 env1 with_pizza "u1"
                           eq_refl eq_refl Hn) pizza Hf)).
  - exact (proj2 (delete_food_item_removes env0 env1 with_pizza "u9"
                    eq_refl eq_refl Hn) Hnone).
Defined.

Lemma bearer_is_second_field_witness :
  Js.free " " "Token" = true /\ Js.free " " "abc" = true
  /\ bearer {| authorization := Some "Token abc"; req_user := None |} = Some "abc"
  /\ bearer {| authorization := Some "Token abc and more"; req_user := None |} = Some "abc"
  /\ authenticateJWT env1 {| authorization := Some "Token"; req_user := None |}
     = inl (send 401 "Access denied").
Proof.
  assert (H1 : Js.free " " "Token" = true) by reflexivity.
  assert (H2 : Js.free " " "abc" = true) by reflexivity.
  split; [exact H1|]. split; [exact H2|]. split; [|split].
  - exact (proj1 (bearer_is_second_field
                    {| authorization := Some "Token abc"; req_user := None |}
                    "Token" "abc" H1 H2) eq_refl).
  - exact (proj1 (proj2 (bearer_is_second_field
                           {| authorization := Some "Token abc and more"; req_user := None |}
                           "Token" "abc" H1 H2)) "and more" eq_refl).
  - exact (proj2 (proj2 (bearer_is_second_field
                           {| authorization := Some "Token"; req_user := None |}
                           "Token" "abc" H1 H2)) eq_refl env1).
Defined.



Lemma signin_sound_witness :
  (body (fst (signin env0 with_alice signing_in))
   = AuthJson alice_token (Some "Alice") (Some "a@x.com")
   /\ exists u h,
        In u (users with_alice)
        /\ (u_email u = Some "555" \/ u_mobile u = Some "555")
        /\ u_password u = Some h
        /\ bcrypt_compare "pw1" h = true)
  /\ (body (fst (signin env0 with_carol
                   {| identifier := JsUndefined; password := JsString "pw9" |}))
      = AuthJson nobody_token (Some "Carol") None
      /\ exists u h,
           In u (users with_carol)
           /\ (u_email u = None \/ u_mobile u = None)
           /\ u_password u = Some h
           /\ bcrypt_compare "pw9" h = true).
Proof.
  assert (Ha : body (fst (signin env0 with_alice signing_in))
               = AuthJson alice_token (Some "Alice") (Some "a@x.com"))
    by (vm_compute; reflexivity).
  assert (Hb : body (fst (signin env0 with_carol
                            {| identifier := JsUndefined; password := JsString "pw9" |}))
               = AuthJson nobody_token (Some "Carol") None)
    by (vm_compute; reflexivity).
  split; (split; [assumption|]).
  - destruct (signin_sound env0 with_alice signing_in _ _ _ Ha)
      as (filter & u & h & p & _ & _ & Hin & Hpw & Hp & Hc & _ & _ & _ & _ & Hid & _).
    exists u, h. split; [exact Hin|]. split; [exact (Hid "555" eq_refl)|].
    split; [exact Hp|]. injection Hpw as <-. exact Hc.
  - destruct (signin_sound env0 with_carol _ _ _ _ Hb)
      as (filter & u & h & p & _ & _ & Hin & Hpw & Hp & Hc & _ & _ & _ & _ & _ & Hid).
    exists u, h. split; [exact Hin|]. split; [exact (Hid (or_introl eq_refl))|].
    split; [exact Hp|]. injection Hpw as <-. exact Hc.
Defined.

Lemma signup_created_witness :
  code (fst (signup env0 empty_db alice_signup None)) = 201
  /\ users (snd (signup env0 empty_db alice_signup None)) = [alice_user].
Proof.
  assert (Hc : code (fst (signup env0 empty_db alice_signup None)) = 201)
    by (vm_compute; reflexivity).
  split; [exact Hc|].
  rewrite (proj1 (signup_created env0 empty_db alice_signup None Hc)). reflexivity.
Defined.

Lemma signup_without_name_witness :
  store_ok env0 = true
  /\ (sb_name nameless_signup = None \/ sb_name nameless_signup = Some "")
  /\ (forall v, In v (users with_alice) ->
                u_email v <> sb_email nameless_signup
                /\ u_mobile v <> sb_mobile nameless_signup)
  /\ signup env0 with_alice nameless_signup None
     = (send 500 "Error registering user", with_alice).
Proof.
  assert (Hn : sb_name nameless_signup = None \/ sb_name nameless_signup = Some "")
    by (left; reflexivity).
  assert (Hf : forall v, In v (users with_alice) ->
                         u_email v <> sb_email nameless_signup
                         /\ u_mobile v <> sb_mobile nameless_signup).
  { intros v [<-|[]]. split; discriminate. }
  split; [reflexivity|]. split; [exact Hn|]. split; [exact Hf|].
  exact (signup_without_name env0 with_alice nameless_signup None eq_refl Hn Hf).
Defined.

Lemma signup_then_profile_witness :
  code (fst (signup env0 empty_db alice_signup None)) = 201
  /\ sb_email alice_signup = Some "a@x.com"
  /\ store_ok env1 = true
  /\ get_profile env1 (snd (signup env0 empty_db alice_signup None)) (bearing alice_token)
     = (json 200 (Profile (without_password alice_user)),
        snd (signup env0 empty_db alice_signup None)).
Proof.
  assert (Hc : code (fst (signup env0 empty_db alice_signup None)) = 201)
    by (vm_compute; reflexivity).
  split; [exact Hc|]. split; [reflexivity|]. split; [reflexivity|].
  exact (signup_then_profile env0 env1 empty_db alice_signup None "a@x.com"
           (bearing alice_token) Hc eq_refl eq_refl eq_refl).
Defined.

Lemma placed_order_is_listed_witness :
  store_ok env0 = true /\ store_ok env1 = true
  /\ castOrder burger = Some burger_fields
  /\ of_userDetails burger_fields
     = Some {| ud_name := Some "Alice"; ud_email := Some "a@x.com" |}
  /\ exists l,
       get_orders_handler env1 (snd (post_orders env0 empty_db burger))
         (set_user no_header alice)
       = (json 200 (Orders l), snd (post_orders env0 empty_db burger))
       /\ In (placed env0 empty_db burger_fields) l.
Proof.
  assert (Hc : castOrder burger = Some burger_fields) by reflexivity.
  split; [reflexivity|]. split; [reflexivity|]. split; [exact Hc|]. split; [reflexivity|].
  destruct (placed_order_is_listed env0 env1 empty_db burger burger_fields _ "a@x.com"
              (set_user no_header alice) alice eq_refl eq_refl Hc eq_refl eq_refl
              eq_refl eq_refl)
    as (l & Hr & Hin & _).
  exists l. split; assumption.
Defined.

Lemma signup_then_signin_witness :
  store_ok env0 = true /\ store_ok env1 = true
  /\ sb_email alice_signup = Some "a@x.com"
  /\ required (sb_name alice_signup) = true
  /\ bcrypt_hash (sb_password alice_signup) (salt env0) <> ""
  /\ fst (signup env0 empty_db alice_signup None)
     = json 201 (AuthJson alice_token (Some "Alice") (Some "a@x.com"))
  /\ signin env1 (snd (signup env0 empty_db alice_signup None))
       {| identifier := JsString "a@x.com"; password := JsString "pw1" |}
     = (json 200 (AuthJson (jwt.sign (signed (Some "a@x.com")) JWT_SECRET (now env1))
                           (Some "Alice") (Some "a@x.com")),
        snd (signup env0 empty_db alice_signup None)).
Proof.
  assert (Hh : bcrypt_hash (sb_password alice_signup) (salt env0) <> "")
    by (cbn; discriminate).
  assert (Hf : forall u, In u (users empty_db) ->
                         u_email u <> sb_email alice_signup
                         /\ u_mobile u <> sb_mobile alice_signup
                         /\ u_mobile u <> Some "a@x.com") by (intros u []).
  destruct (signup_then_signin env0 env1 empty_db alice_signup None "a@x.com"
              eq_refl eq_refl eq_refl eq_refl Hh Hf) as [Hup Hin].
  split; [reflexivity|]. split; [reflexivity|]. split; [reflexivity|].
  split; [reflexivity|]. split; [exact Hh|]. split; [exact Hup|exact Hin].
Defined.

Lemma status_update_is_listed_witness :
  store_ok env1 = true
  /\ NoDup (order_ids with_burger)
  /\ In "Rejected" status_enum
  /\ castObjectId id0 = Some 0
  /\ List.find (Order.by_id 0) (orders with_burger) = Some burger_order
  /\ ud_email (userDetails burger_order) = Some "a@x.com"
  /\ exists l,
       get_orders_handler env1 (snd (put_orders env1 with_burger id0 (JsString "Rejected")))
         (set_user no_header alice)
       = (json 200 (Orders l), snd (put_orders env1 with_burger id0 (JsString "Rejected")))
       /\ In (Order.set_status "Rejected" 2000 burger_order) l.
Proof.
  assert (Hn : NoDup (order_ids with_burger)) by (repeat constructor; intros []).
  assert (Hin : In "Rejected" status_enum) by (right; right; left; reflexivity).
  assert (Hc : castObjectId id0 = Some 0) by (vm_compute; reflexivity).
  split; [reflexivity|]. split; [exact Hn|]. split; [exact Hin|]. split; [exact Hc|].
  split; [reflexivity|]. split; [reflexivity|].
  destruct (status_update_is_listed env1 env1 with_burger id0 0 "Rejected" "a@x.com"
              burger_order (set_user no_header alice) alice
              eq_refl eq_refl Hn Hin Hc eq_refl eq_refl eq_refl eq_refl) as (l & Hr & Hl & _).
  exists l. split; assumption.
Defined.

End FurtherWitnesses.
